(** * lark-chatflow: the webhook bridge between Lark and Flowise

    A shallow embedding of [src/index.js] and of its sibling
    [src/unnamed/part_000] (the variant with the image-upload path), and the
    properties of the dedup guard, the session store, the reply formatter and
    the command router.

    Conventions of the embedding.
    - A JavaScript value that comes out of [JSON.parse] (or is [undefined]) is
      a [jsval].  Numbers are the integers (doubles are not modelled; the
      program only tests numbers for truthiness and prints them).
    - A JavaScript string is a [string]: the UTF-8 encoding of the text, one
      [ascii] per byte.
    - The two process-wide stores ([conversationHistories], [processedEvents])
      are fields of an explicit [State]; every handler is a function of the
      state, in the state-and-exception monad [M].  An exception keeps the
      state reached when it was thrown, as a JavaScript [throw] does.
    - The outside world (the Lark client, the Flowise endpoint, the file
      system, [JSON.parse]) is an [Env] of oracles.  The Lark and Flowise
      oracles see the trace of effects so far, so they may answer differently
      at every call.
    - [Index] and [Part000] describe one handler run from its start to its
      end.  Handlers of several requests interleave at every [await]: what
      this does to the session store is the subject of the event loop of
      [Store], [ask], [resume] and [clear].
    - Console output ([console.log], [logger]) is not modelled. *)

From Stdlib Require Import ZArith String Ascii List Bool Lia.
From stdpp Require Import base option list gmap strings pretty.

Local Open Scope string_scope.
Local Open Scope list_scope.
Set Warnings "-register-all".

(** ** JavaScript values *)

Inductive jsval : Type :=
| JUndef
| JNull
| JBool (b : bool)
| JNum (n : Z)
| JStr (s : string)
| JArr (elements : list jsval)
| JObj (properties : list (string * jsval)).

Inductive exn : Type :=
| TypeError      (* property of undefined/null, call of a non-function, ... *)
| SyntaxError    (* JSON.parse *)
| FetchError     (* fetch or response.json() rejected *)
| LarkError      (* the Lark client rejected *)
| Error (msg : string).

Inductive result (A : Type) : Type :=
| Ok (a : A)
| Throw (e : exn).
Arguments Ok {A} a.
Arguments Throw {A} e.

#[global] Instance result_ret : MRet result := fun _ a => Ok a.
#[global] Instance result_bind : MBind result :=
  fun _ _ f r => match r with Ok a => f a | Throw e => Throw e end.

(** Own properties of an object, in the order of the list; the first entry of
    a key is the property. *)
Fixpoint own (k : string) (props : list (string * jsval)) : option jsval :=
  match props with
  | [] => None
  | (k', v) :: rest => if String.eqb k k' then Some v else own k rest
  end.

(** [v.k] for the property names this program reads ([type], [header],
    [event], [message], [text], ...): none of them is a property of a
    prototype, so the read is [undefined] on everything but an object that
    owns it, and a TypeError on [undefined] and [null].  Destructuring
    [const { k } = v] reads the same way. *)
Definition get (v : jsval) (k : string) : result jsval :=
  match v with
  | JUndef | JNull => Throw TypeError
  | JObj props => Ok (default JUndef (own k props))
  | _ => Ok JUndef
  end.

(** ToBoolean. *)
Definition truthy (v : jsval) : bool :=
  match v with
  | JUndef | JNull => false
  | JBool b => b
  | JNum n => negb (Z.eqb n 0)
  | JStr s => negb (String.eqb s "")
  | JArr _ | JObj _ => true
  end.

(** [v === "lit"]. *)
Definition is_str (v : jsval) (lit : string) : bool :=
  match v with
  | JStr s => String.eqb s lit
  | _ => false
  end.

(** A parameter with a default value: the default replaces [undefined] only. *)
Definition default_param (v d : jsval) : jsval :=
  match v with
  | JUndef => d
  | _ => v
  end.

(** [Array.prototype.join]: [elem] renders one element. *)
Fixpoint array_join (elem : jsval -> result string) (sep : string)
    (l : list jsval) : result string :=
  match l with
  | [] => Ok ""
  | x :: rest =>
      sx ← elem x;
      match rest with
      | [] => Ok sx
      | _ => sr ← array_join elem sep rest; Ok (sx +:+ sep +:+ sr)
      end
  end.

(** ToString.  An array prints as its elements joined by commas, [undefined]
    and [null] elements as the empty string; an object prints as
    [[object Object]] unless it owns a [toString] property, which (coming from
    JSON) is never callable and makes the conversion a TypeError. *)
Fixpoint ToString (v : jsval) : result string :=
  match v with
  | JUndef => Ok "undefined"
  | JNull => Ok "null"
  | JBool true => Ok "true"
  | JBool false => Ok "false"
  | JNum n => Ok (pretty n)
  | JStr s => Ok s
  | JArr l =>
      array_join
        (fun x => match x with JUndef | JNull => Ok "" | _ => ToString x end)
        "," l
  | JObj props =>
      match own "toString" props with
      | Some _ => Throw TypeError
      | None => Ok "[object Object]"
      end
  end.

Definition join_elem (x : jsval) : result string :=
  match x with
  | JUndef | JNull => Ok ""
  | _ => ToString x
  end.

(** [history.join(sep)]. *)
Definition join (sep : string) (l : list jsval) : result string :=
  array_join join_elem sep l.

(** The values a [for ... of] loop visits: the elements of an array, the
    characters of a string; anything else coming from JSON is not iterable. *)
Definition iterate (v : jsval) : result (list jsval) :=
  match v with
  | JArr l => Ok l
  | JStr s => Ok (map (fun c => JStr (String c "")) (list_ascii_of_string s))
  | _ => Throw TypeError
  end.

(** SameValueZero on the values of a request: primitives by value; an array or
    an object is a fresh reference in every parsed request, equal to none
    stored before. *)
Definition same_value_zero (a b : jsval) : bool :=
  match a, b with
  | JUndef, JUndef | JNull, JNull => true
  | JBool x, JBool y => Bool.eqb x y
  | JNum x, JNum y => Z.eqb x y
  | JStr x, JStr y => String.eqb x y
  | _, _ => false
  end.

(** ** Strings *)

Fixpoint string_drop (n : nat) (s : string) : string :=
  match n, s with
  | S n', String _ s' => string_drop n' s'
  | _, _ => s
  end.

(** [s.startsWith(p)]. *)
Definition startsWith (p s : string) : bool := String.prefix p s.

(** [s.includes(needle)]. *)
Fixpoint includes (needle s : string) : bool :=
  startsWith needle s ||
  match s with
  | EmptyString => false
  | String _ s' => includes needle s'
  end.

(** [s.replace(pat, rep)] with a string pattern: the first occurrence only. *)
Fixpoint replace_first (pat rep s : string) : string :=
  if startsWith pat s then rep +:+ string_drop (String.length pat) s
  else match s with
       | EmptyString => EmptyString
       | String c s' => String c (replace_first pat rep s')
       end.

(** [s.toLowerCase()] on the letters A-Z.  The only use of it is the test for
    the words "histogram" and "chart", which no letter outside ASCII can
    complete. *)
Definition lower (c : ascii) : ascii :=
  let n := nat_of_ascii c in
  if (65 <=? n)%nat && (n <=? 90)%nat then ascii_of_nat (n + 32) else c.

Fixpoint toLowerCase (s : string) : string :=
  match s with
  | EmptyString => EmptyString
  | String c s' => String (lower c) (toLowerCase s')
  end.

(** White space and line terminators of ECMAScript, UTF-8 encoded: the bytes
    TAB LF VT FF CR SP; U+00A0; U+1680, U+2000..U+200A, U+2028, U+2029,
    U+202F, U+205F, U+3000, U+FEFF. *)
Definition ws1 (a : ascii) : bool :=
  let n := nat_of_ascii a in
  ((9 <=? n)%nat && (n <=? 13)%nat) || (n =? 32)%nat.

Definition ws2 (a b : ascii) : bool :=
  (nat_of_ascii a =? 194)%nat && (nat_of_ascii b =? 160)%nat.

Definition ws3 (a b c : ascii) : bool :=
  let x := nat_of_ascii a in
  let y := nat_of_ascii b in
  let z := nat_of_ascii c in
  ((x =? 225) && (y =? 154) && (z =? 128))%nat
  || ((x =? 226) && (y =? 128)
      && (((128 <=? z) && (z <=? 138)) || (z =? 168) || (z =? 169) || (z =? 175)))%nat
  || ((x =? 226) && (y =? 129) && (z =? 159))%nat
  || ((x =? 227) && (y =? 128) && (z =? 128))%nat
  || ((x =? 239) && (y =? 187) && (z =? 191))%nat.

(** Drops the leading white space; [w2] and [w3] recognise the two- and
    three-byte characters (mirrored when the string is read backwards). *)
Fixpoint strip_leading (w2 : ascii -> ascii -> bool)
    (w3 : ascii -> ascii -> ascii -> bool) (s : string) : string :=
  match s with
  | String a s1 =>
      if ws1 a then strip_leading w2 w3 s1
      else match s1 with
           | String b s2 =>
               if w2 a b then strip_leading w2 w3 s2
               else match s2 with
                    | String c s3 =>
                        if w3 a b c then strip_leading w2 w3 s3 else s
                    | EmptyString => s
                    end
           | EmptyString => s
           end
  | EmptyString => s
  end.

Definition trimStart (s : string) : string := strip_leading ws2 ws3 s.

Definition trimEnd (s : string) : string :=
  String.rev
    (strip_leading (fun a b => ws2 b a) (fun a b c => ws3 c b a) (String.rev s)).

(** [s.trim()]. *)
Definition trim (s : string) : string := trimEnd (trimStart s).

(** ** formatMarkdown

    [text.replace(/\*\*(.*?)\*\*/g, "<b>$1</b>")] and then
    [text.replace(/\*(.*?)\*/g, "<i>$1</i>")].  The dot matches every character
    but a line terminator (LF, CR, U+2028, U+2029). *)

Definition line_terminator_next (s : string) : bool :=
  match s with
  | String a rest =>
      let n := nat_of_ascii a in
      (n =? 10)%nat || (n =? 13)%nat ||
      match rest with
      | String b (String c _) =>
          (n =? 226)%nat && (nat_of_ascii b =? 128)%nat
          && ((nat_of_ascii c =? 168)%nat || (nat_of_ascii c =? 169)%nat)
      | _ => false
      end
  | EmptyString => false
  end.

(** [(.*?)d] from the start of [s]: the lazy group grows one character at a
    time until the closing delimiter [d] matches; the result is the group and
    what follows the delimiter. *)
Fixpoint lazy_until (d : string) (s : string) : option (string * string) :=
  if startsWith d s then Some (EmptyString, string_drop (String.length d) s)
  else match s with
       | EmptyString => None
       | String c s' =>
           if line_terminator_next s then None
           else match lazy_until d s' with
                | Some (group, rest) => Some (String c group, rest)
                | None => None
                end
       end.

(** One match of [d(.*?)d] anchored at the start of [s]. *)
Definition match_here (d : string) (s : string) : option (string * string) :=
  if startsWith d s then lazy_until d (string_drop (String.length d) s)
  else None.

(** The global replace: scan from the left; at a match emit [l group r] and
    go on after the match, otherwise copy one character.  A match is never
    empty, so every step consumes input and [fuel] above the length is never
    exhausted. *)
Fixpoint replace_spans (d l r : string) (fuel : nat) (s : string) : string :=
  match fuel with
  | O => s
  | S fuel' =>
      match match_here d s with
      | Some (group, rest) =>
          l +:+ group +:+ r +:+ replace_spans d l r fuel' rest
      | None =>
          match s with
          | EmptyString => EmptyString
          | String c s' => String c (replace_spans d l r fuel' s')
          end
      end
  end.

Definition replace_all_spans (d l r s : string) : string :=
  replace_spans d l r (S (String.length s)) s.

Definition formatMarkdown (text : string) : string :=
  let text := replace_all_spans "**" "<b>" "</b>" text in
  let text := replace_all_spans "*" "<i>" "</i>" text in
  text.

(** [formatMarkdown(content)] on a value: a TypeError unless [content] is a
    string ([replace] is a method of strings only). *)
Definition formatMarkdown_of (content : jsval) : result string :=
  match content with
  | JStr s => Ok (formatMarkdown s)
  | _ => Throw TypeError
  end.

(** ** Messages, effects, state *)

(** The [content] of a Lark message before [JSON.stringify]. *)
Inductive payload : Type :=
| TextContent (text : string)          (* { text: ... } *)
| ImageContent (image_key : jsval).    (* { image_key: ... } *)

Record Message : Type := mkMessage {
  message_id : jsval;
  content : payload;
  msg_type : jsval
}.

(** What one POST to the Flowise endpoint comes to: [fetch] rejects,
    [response.json()] rejects, or the parsed body. *)
Inductive FetchOutcome : Type :=
| FetchRejects
| JsonRejects
| Body (result : jsval).

Inductive Effect : Type :=
| ProcessedAdd (eventId : jsval)
| HistorySet (sessionId : string) (history : list jsval)
| HistoryDelete (sessionId : string)
| LarkReply (m : Message) (response : option jsval)
| FlowiseFetch (question : string) (out : FetchOutcome)
| ImageCreate (filePath : string) (image_key : option jsval).

Record State : Type := mkState {
  conversationHistories : gmap string (list jsval);
  processedEvents : list jsval;
  trace : list Effect
}.

(** The collaborators.  [None] from a Lark oracle is a rejected call. *)
Record Env : Type := mkEnv {
  LARK_APP_ID : string;
  LARK_APP_SECRET : string;
  JSON_parse : string -> option jsval;
  im_message_reply : list Effect -> Message -> option jsval;
  flowise : list Effect -> string -> FetchOutcome;
  fs_existsSync : string -> bool;
  im_image_create : list Effect -> string -> option jsval
}.

(** ** The monad of handlers *)

Definition M (A : Type) : Type := State -> result A * State.

#[global] Instance M_ret : MRet M := fun _ a st => (Ok a, st).
#[global] Instance M_bind : MBind M :=
  fun _ _ f m st =>
    match m st with
    | (Ok a, st') => f a st'
    | (Throw e, st') => (Throw e, st')
    end.

Definition throw {A : Type} (e : exn) : M A := fun st => (Throw e, st).

Definition lift {A : Type} (r : result A) : M A := fun st => (r, st).

Definition try_catch {A : Type} (body : M A) (handler : exn -> M A) : M A :=
  fun st =>
    match body st with
    | (Ok a, st') => (Ok a, st')
    | (Throw e, st') => handler e st'
    end.

Fixpoint for_each {A : Type} (l : list A) (body : A -> M unit) : M unit :=
  match l with
  | [] => mret tt
  | x :: rest => body x;; for_each rest body
  end.

Definition emit (e : Effect) (st : State) : State :=
  mkState (conversationHistories st) (processedEvents st) (trace st ++ [e]).

(** [processedEvents.has(eventId)]. *)
Definition processed_has (eventId : jsval) : M bool :=
  fun st => (Ok (existsb (same_value_zero eventId) (processedEvents st)), st).

(** [processedEvents.add(eventId)]. *)
Definition processed_add (eventId : jsval) : M unit :=
  fun st =>
    let set :=
      if existsb (same_value_zero eventId) (processedEvents st)
      then processedEvents st
      else processedEvents st ++ [eventId] in
    (Ok tt,
     mkState (conversationHistories st) set (trace st ++ [ProcessedAdd eventId])).

(** [conversationHistories.get(sessionId)]. *)
Definition history_get (sessionId : string) : M (option (list jsval)) :=
  fun st => (Ok (conversationHistories st !! sessionId), st).

(** [conversationHistories.set(sessionId, history)]. *)
Definition history_set (sessionId : string) (history : list jsval) : M unit :=
  fun st =>
    (Ok tt,
     mkState (<[sessionId := history]> (conversationHistories st))
       (processedEvents st) (trace st ++ [HistorySet sessionId history])).

(** [conversationHistories.delete(sessionId)]. *)
Definition history_delete (sessionId : string) : M unit :=
  fun st =>
    (Ok tt,
     mkState (delete sessionId (conversationHistories st))
       (processedEvents st) (trace st ++ [HistoryDelete sessionId])).

Section Collaborators.
Context (E : Env).

(** [await client.im.message.reply({...})]. *)
Definition lark_reply (m : Message) : M jsval :=
  fun st =>
    let r := im_message_reply E (trace st) m in
    (match r with Some v => Ok v | None => Throw LarkError end,
     emit (LarkReply m r) st).

(** [await fetch(FLOWISE_API_URL, {... body: {question}})] and then
    [await response.json()]. *)
Definition fetch_flowise (question : string) : M jsval :=
  fun st =>
    let out := flowise E (trace st) question in
    (match out with Body v => Ok v | _ => Throw FetchError end,
     emit (FlowiseFetch question out) st).

(** [await client.im.image.create(...)] and [response.data.image_key]. *)
Definition image_create (filePath : string) : M jsval :=
  fun st =>
    let r := im_image_create E (trace st) filePath in
    (match r with Some v => Ok v | None => Throw LarkError end,
     emit (ImageCreate filePath r) st).

(** [JSON.parse(v)]: the argument is converted to a string first. *)
Definition parse (v : jsval) : M jsval :=
  s ← lift (ToString v);
  match JSON_parse E s with
  | Some parsed => mret parsed
  | None => throw SyntaxError
  end.

(** [validateAppConfig()]. *)
Definition validateAppConfig : M jsval :=
  if String.eqb (LARK_APP_ID E) "" || String.eqb (LARK_APP_SECRET E) "" then
    mret (JObj [("code", JNum 1);
                ("message", JStr "Missing Lark App ID or Secret")])
  else if negb (startsWith "cli_" (LARK_APP_ID E)) then
    mret (JObj [("code", JNum 1);
                ("message", JStr "Lark App ID must start with 'cli_'")])
  else
    mret (JObj [("code", JNum 0);
                ("message", JStr "✅ Lark App configuration is valid.")]).
End Collaborators.

(** [`${chatId}${senderId}`]. *)
Definition sessionId_of (chatId senderId : jsval) : result string :=
  c ← ToString chatId;
  s ← ToString senderId;
  Ok (c +:+ s).

(** ** src/index.js *)

Module Index.
Section Handlers.
Context (E : Env).

(** [reply(messageId, content, artifacts = [], msgType = "text")]: one
    [try] around the text message and the whole loop over the artifacts;
    the [catch] logs and returns nothing. *)
Definition reply (messageId content artifacts msgType : jsval) : M jsval :=
  try_catch
    (formattedContent ← lift (formatMarkdown_of content);
     lark_reply E
       (mkMessage messageId (TextContent formattedContent)
          (default_param msgType (JStr "text")));;
     items ← lift (iterate (default_param artifacts (JArr [])));
     for_each items (fun artifact =>
       type ← lift (get artifact "type");
       if is_str type "png" then
         data ← lift (get artifact "data");
         lark_reply E (mkMessage messageId (ImageContent data) (JStr "image"));;
         mret tt
       else mret tt);;
     mret JUndef)
    (fun _ => mret JUndef).

Definition helpText : string :=
"
  Lark GPT Commands

  Usage:
  - /clear : Remove conversation history to start a new session.
  - /help : Get more help messages.
  ".

(** [cmdHelp(messageId)]: the third argument of [reply] is here the string
    "Help", which lands in [artifacts]. *)
Definition cmdHelp (messageId : jsval) : M jsval :=
  reply messageId (JStr helpText) (JStr "Help") JUndef;;
  mret JUndef.

Definition cmdClear (sessionId : string) (messageId : jsval) : M jsval :=
  history_delete sessionId;;
  reply messageId (JStr "✅ Conversation history cleared.") JUndef JUndef;;
  mret JUndef.

Definition cmdProcess (action sessionId : string) (messageId : jsval) : M jsval :=
  if String.eqb action "/help" then cmdHelp messageId
  else if String.eqb action "/clear" then cmdClear sessionId messageId
  else cmdHelp messageId.

(** [queryFlowise(question, sessionId)].  [history] is the array stored in
    the map (or a new one): [push] followed by [set] leaves the map holding
    the extended array, which is one [history_set] here. *)
Definition queryFlowise (question sessionId : string) : M jsval :=
  stored ← history_get sessionId;
  let history := default [] stored ++ [JStr question] in
  history_set sessionId history;;
  try_catch
    (context ← lift (join " " history);
     result ← fetch_flowise E context;
     text ← lift (get result "text");
     if truthy text then
       let history := history ++ [text] in
       history_set sessionId history;;
       mret result
     else throw (Error "Invalid response from Flowise API"))
    (fun error => throw error).

(** [handleReply(userInput, sessionId, messageId)]. *)
Definition handleReply (userInput : jsval) (sessionId : string)
    (messageId : jsval) : M jsval :=
  text ← lift (get userInput "text");
  question ←
    (if truthy text then
       match text with
       | JStr s => mret (Some (trim (replace_first "@_user_1" "" s)))
       | _ => throw TypeError
       end
     else mret None);
  match question with
  | None | Some EmptyString =>
      reply messageId
        (JStr "⚠️ Invalid input received. Please provide a valid question.")
        JUndef JUndef
  | Some question =>
      if startsWith "/" question then cmdProcess question sessionId messageId
      else
        try_catch
          (flowiseResponse ← queryFlowise question sessionId;
           text ← lift (get flowiseResponse "text");
           artifacts ← lift (get flowiseResponse "artifacts");
           reply messageId text (default_param artifacts (JArr [])) JUndef)
          (fun _ =>
             reply messageId
               (JStr "⚠️ An error occurred while processing your request.")
               JUndef JUndef)
  end.

(** [app.post("/webhook", ...)]: the value is the body given to [res.json];
    [Throw] is a rejection of the handler's promise. *)
Definition webhook (params : jsval) : M jsval :=
  type ← lift (get params "type");
  if is_str type "url_verification" then
    challenge ← lift (get params "challenge");
    mret (JObj [("challenge", challenge)])
  else
  encrypt ← lift (get params "encrypt");
  if truthy encrypt then
    mret (JObj [("code", JNum 1);
                ("message", JStr "Encryption is enabled, please disable it.")])
  else
  header ← lift (get params "header");
  if negb (truthy header) then validateAppConfig E
  else
  eventType ← lift (get header "event_type");
  eventId ← lift (get header "event_id");
  if is_str eventType "im.message.receive_v1" then
    event ← lift (get params "event");
    message ← lift (get event "message");
    messageId ← lift (get message "message_id");
    chatId ← lift (get message "chat_id");
    messageType ← lift (get message "message_type");
    sender ← lift (get event "sender");
    sender_id ← lift (get sender "sender_id");
    senderId ← lift (get sender_id "user_id");
    sessionId ← lift (sessionId_of chatId senderId);
    seen ← processed_has eventId;
    if (seen : bool) then
      mret (JObj [("code", JNum 0); ("message", JStr "Duplicate event")])
    else
    processed_add eventId;;
    if negb (is_str messageType "text") then
      reply messageId (JStr "Only text messages are supported.") JUndef JUndef;;
      mret (JObj [("code", JNum 0)])
    else
    content ← lift (get message "content");
    userInput ← parse E content;
    result ← handleReply userInput sessionId messageId;
    mret result
  else mret (JObj [("code", JNum 2)]).
End Handlers.
End Index.

(** ** src/unnamed/part_000 *)

Module Part000.
Section Handlers.
Context (E : Env).

(** [reply(messageId, content, msgType = "text")]: the text message only;
    the value is the Lark response, or nothing after the [catch]. *)
Definition reply (messageId content msgType : jsval) : M jsval :=
  try_catch
    (formattedContent ← lift (formatMarkdown_of content);
     lark_reply E
       (mkMessage messageId (TextContent formattedContent)
          (default_param msgType (JStr "text"))))
    (fun _ => mret JUndef).

(** [uploadImage(filePath)]. *)
Definition uploadImage (filePath : string) : M jsval :=
  try_catch
    (if fs_existsSync E filePath then image_create E filePath
     else throw (Error ("File not found: " +:+ filePath)))
    (fun error => throw error).

(** [replyWithImage(messageId, imageKey)]. *)
Definition replyWithImage (messageId imageKey : jsval) : M jsval :=
  lark_reply E (mkMessage messageId (ImageContent imageKey) (JStr "image")).

Definition helpText : string :=
"
  Lark GPT Commands:
  - /clear : Remove conversation history to start a new session.
  - /help : Get more help messages.
  ".

(** [cmdHelp(messageId)]: here "Help" is the [msgType]. *)
Definition cmdHelp (messageId : jsval) : M jsval :=
  reply messageId (JStr helpText) (JStr "Help");;
  mret JUndef.

Definition cmdClear (sessionId : string) (messageId : jsval) : M jsval :=
  history_delete sessionId;;
  reply messageId (JStr "✅ Conversation history cleared.") JUndef;;
  mret JUndef.

Definition cmdProcess (action sessionId : string) (messageId : jsval) : M jsval :=
  if String.eqb action "/help" then cmdHelp messageId
  else if String.eqb action "/clear" then cmdClear sessionId messageId
  else cmdHelp messageId.

(** [queryFlowise(question, sessionId)]: as in index.js, but the value is
    [result.text]. *)
Definition queryFlowise (question sessionId : string) : M jsval :=
  stored ← history_get sessionId;
  let history := default [] stored ++ [JStr question] in
  history_set sessionId history;;
  try_catch
    (context ← lift (join " " history);
     result ← fetch_flowise E context;
     text ← lift (get result "text");
     if truthy text then
       let history := history ++ [text] in
       history_set sessionId history;;
       mret text
     else throw (Error "Invalid response from Flowise API"))
    (fun error => throw error).

(** [handleReply(userInput, sessionId, messageId)]: no test of
    [userInput.text] before [replace]. *)
Definition handleReply (userInput : jsval) (sessionId : string)
    (messageId : jsval) : M jsval :=
  text ← lift (get userInput "text");
  question ←
    match text with
    | JStr s => mret (trim (replace_first "@_user_1" "" s))
    | _ => throw TypeError
    end;
  if startsWith "/" question then cmdProcess question sessionId messageId
  else
    try_catch
      (answer ← queryFlowise question sessionId;
       if includes "histogram" (toLowerCase question)
          || includes "chart" (toLowerCase question) then
         let filePath := "/tmp/work_hours_histogram.png" in
         imageKey ← uploadImage filePath;
         if truthy imageKey then replyWithImage messageId imageKey
         else reply messageId answer JUndef
       else reply messageId answer JUndef)
      (fun _ =>
         reply messageId
           (JStr "⚠️ An error occurred while processing your request.")
           JUndef).

(** [app.post("/webhook", ...)] of part_000: the text of the handler is that
    of index.js; it calls the [reply] and [handleReply] of this file. *)
Definition webhook (params : jsval) : M jsval :=
  type ← lift (get params "type");
  if is_str type "url_verification" then
    challenge ← lift (get params "challenge");
    mret (JObj [("challenge", challenge)])
  else
  encrypt ← lift (get params "encrypt");
  if truthy encrypt then
    mret (JObj [("code", JNum 1);
                ("message", JStr "Encryption is enabled, please disable it.")])
  else
  header ← lift (get params "header");
  if negb (truthy header) then validateAppConfig E
  else
  eventType ← lift (get header "event_type");
  eventId ← lift (get header "event_id");
  if is_str eventType "im.message.receive_v1" then
    event ← lift (get params "event");
    message ← lift (get event "message");
    messageId ← lift (get message "message_id");
    chatId ← lift (get message "chat_id");
    messageType ← lift (get message "message_type");
    sender ← lift (get event "sender");
    sender_id ← lift (get sender "sender_id");
    senderId ← lift (get sender_id "user_id");
    sessionId ← lift (sessionId_of chatId senderId);
    seen ← processed_has eventId;
    if (seen : bool) then
      mret (JObj [("code", JNum 0); ("message", JStr "Duplicate event")])
    else
    processed_add eventId;;
    if negb (is_str messageType "text") then
      reply messageId (JStr "Only text messages are supported.") JUndef;;
      mret (JObj [("code", JNum 0)])
    else
    content ← lift (get message "content");
    userInput ← parse E content;
    result ← handleReply userInput sessionId messageId;
    mret result
  else mret (JObj [("code", JNum 2)]).
End Handlers.
End Part000.

(** ** Vocabulary of the statements *)

(** The state after the effects [tr] that touch neither store. *)
Definition add_trace (st : State) (tr : list Effect) : State :=
  mkState (conversationHistories st) (processedEvents st) (trace st ++ tr).

(** Sending [msgs] one after the other inside one [try]: the first rejected
    call ends the sequence. *)
Fixpoint send_until_failure (E : Env) (tr : list Effect) (msgs : list Message)
    : list Effect :=
  match msgs with
  | [] => []
  | m :: rest =>
      let r := im_message_reply E tr m in
      LarkReply m r ::
      match r with
      | Some _ => send_until_failure E (tr ++ [LarkReply m r]) rest
      | None => []
      end
  end.

(** The image messages of the loop over the artifacts: one per artifact whose
    [type] is "png", in order; reading [type] off a [null] entry ends the loop. *)
Fixpoint image_messages (messageId : jsval) (items : list jsval) : list Message :=
  match items with
  | [] => []
  | artifact :: rest =>
      match get artifact "type", get artifact "data" with
      | Ok type, Ok data =>
          if is_str type "png"
          then mkMessage messageId (ImageContent data) (JStr "image")
               :: image_messages messageId rest
          else image_messages messageId rest
      | _, _ => []
      end
  end.

(** The messages [Index.reply] tries to send, in order. *)
Definition reply_messages (messageId content artifacts msgType : jsval)
    : list Message :=
  match formatMarkdown_of content with
  | Throw _ => []
  | Ok formatted =>
      mkMessage messageId (TextContent formatted)
        (default_param msgType (JStr "text"))
      :: match iterate (default_param artifacts (JArr [])) with
         | Ok items => image_messages messageId items
         | Throw _ => []
         end
  end.

Definition is_text_reply (e : Effect) : bool :=
  match e with
  | LarkReply m _ =>
      match content m with TextContent _ => true | ImageContent _ => false end
  | _ => false
  end.

Definition is_image_reply (e : Effect) : bool :=
  match e with
  | LarkReply m _ =>
      match content m with TextContent _ => false | ImageContent _ => true end
  | _ => false
  end.

(** Text replies attempted in a trace, and image replies. *)
Definition text_replies (tr : list Effect) : nat :=
  List.length (List.filter is_text_reply tr).

Definition image_replies (tr : list Effect) : nat :=
  List.length (List.filter is_image_reply tr).

Definition is_fetch (e : Effect) : bool :=
  match e with
  | FlowiseFetch _ _ => true
  | _ => false
  end.

(** Every answer of Flowise in the trace has a [text] that is absent, falsy
    or a string (the [Answer] of the data model). *)
Definition typed_answer (e : Effect) : bool :=
  match e with
  | FlowiseFetch _ (Body r) =>
      match get r "text" with
      | Ok (JStr _) => true
      | Ok t => negb (truthy t)
      | Throw _ => true
      end
  | _ => true
  end.

Definition completes {A : Type} (r : result A) : bool :=
  match r with
  | Ok _ => true
  | Throw _ => false
  end.

(** The InboundEvent of the data model, and the request body Lark sends for
    it: the fields [webhook] reads. *)
Record InboundEvent : Type := mkEvent {
  eventId : string;
  chatId : string;
  senderId : string;
  messageId : string;
  messageType : string;
  rawContent : string
}.

Definition message_received (ev : InboundEvent) : jsval :=
  JObj
    [("schema", JStr "2.0");
     ("header",
      JObj [("event_id", JStr (eventId ev));
            ("event_type", JStr "im.message.receive_v1")]);
     ("event",
      JObj [("sender",
             JObj [("sender_id", JObj [("user_id", JStr (senderId ev))])]);
            ("message",
             JObj [("message_id", JStr (messageId ev));
                   ("chat_id", JStr (chatId ev));
                   ("message_type", JStr (messageType ev));
                   ("content", JStr (rawContent ev))])])].

Definition seen (id : string) (st : State) : bool :=
  existsb (same_value_zero (JStr id)) (processedEvents st).

Definition duplicate_event : jsval :=
  JObj [("code", JNum 0); ("message", JStr "Duplicate event")].

(** The effects of a run that took [st] to [st']. *)
Definition effects_since (st st' : State) : list Effect :=
  drop (List.length (trace st)) (trace st').

(** [Index.handleReply] throws on this input: [userInput] is [null], or its
    [text] is truthy and not a string. *)
Definition input_rejected (userInput : jsval) : bool :=
  match get userInput "text" with
  | Throw _ => true
  | Ok (JStr _) => false
  | Ok text => truthy text
  end.

(** The text path of [webhook] throws on this content: it is not JSON, or
    [handleReply] throws on what it parses to. *)
Definition content_rejected (E : Env) (raw : string) : bool :=
  match JSON_parse E raw with
  | None => true
  | Some userInput => input_rejected userInput
  end.

(** The history [queryFlowise] stores before it calls Flowise. *)
Definition asked (st : State) (sessionId question : string) : list jsval :=
  default [] (conversationHistories st !! sessionId) ++ [JStr question].

(** The answer text Flowise contributes: the truthy [text] of a body. *)
Definition answer_of (out : FetchOutcome) : option jsval :=
  match out with
  | Body r =>
      match get r "text" with
      | Ok text => if truthy text then Some text else None
      | Throw _ => None
      end
  | _ => None
  end.

Definition answer_text (r : jsval) : jsval :=
  match get r "text" with
  | Ok text => text
  | Throw _ => JUndef
  end.


(** The body of the loop over the artifacts in [Index.reply]. *)
Definition artifact_step (E : Env) (messageId artifact : jsval) : M unit :=
  type ← lift (get artifact "type");
  if is_str type "png" then
    data ← lift (get artifact "data");
    lark_reply E (mkMessage messageId (ImageContent data) (JStr "image"));;
    mret tt
  else mret tt.

(** What a run of a handler with one call of [reply] leaves behind. *)
Definition one_reply (st st' : State) : Prop :=
  processedEvents st' = processedEvents st
  ∧ ∃ sent, trace st' = trace st ++ sent
      ∧ (text_replies sent ≤ 1)%nat
      ∧ (forallb typed_answer sent = true → text_replies sent = 1).

(** The state after [processedEvents.add(id)] of a new id. *)
Definition marked (id : string) (st : State) : State :=
  mkState (conversationHistories st) (processedEvents st ++ [JStr id])
    (trace st ++ [ProcessedAdd (JStr id)]).

Definition only_text_message (ev : InboundEvent) : Message :=
  mkMessage (JStr (messageId ev))
    (TextContent "Only text messages are supported.") (JStr "text").

(** The body carries a header whose [event_type] is "im.message.receive_v1". *)
Definition is_message_event (params : jsval) : bool :=
  match get params "header" with
  | Ok header =>
      match get header "event_type" with
      | Ok type => is_str type "im.message.receive_v1"
      | Throw _ => false
      end
  | Throw _ => false
  end.

Definition nullish (v : jsval) : bool :=
  match v with
  | JUndef | JNull => true
  | _ => false
  end.

(** The question [handleReply] extracts from the text of a message: the
    first mention token removed, then trimmed. *)
Definition question_of (s : string) : string :=
  trim (replace_first "@_user_1" "" s).

(** ** Example environments *)

Definition quote : string := String (ascii_of_nat 34) EmptyString.

(** The JSON text of [{ text: s }]. *)
Definition text_json (s : string) : string :=
  "{" +:+ quote +:+ "text" +:+ quote +:+ ":" +:+ quote +:+ s +:+ quote +:+ "}".

(** [JSON.parse] on the contents the examples use; "not json" and every
    string outside the table stand for a text that is not JSON. *)
Definition parse_examples (s : string) : option jsval :=
  if String.eqb s (text_json "@_user_1 hello") then
    Some (JObj [("text", JStr "@_user_1 hello")])
  else if String.eqb s (text_json "/clear") then
    Some (JObj [("text", JStr "/clear")])
  else if String.eqb s "{}" then Some (JObj [])
  else None.

Definition lark_ok : jsval := JObj [("code", JNum 0)].

Definition png (key : string) : jsval :=
  JObj [("type", JStr "png"); ("data", JStr key)].

(** Lark accepts every message, Flowise answers "pong" without artifacts,
    the chart file does not exist. *)
Definition calm : Env :=
  mkEnv "cli_a1b2" "secret" parse_examples
    (fun _ _ => Some lark_ok)
    (fun _ _ => Body (JObj [("text", JStr "pong")]))
    (fun _ => false)
    (fun _ _ => None).

(** As [calm], but Lark rejects the image message of the key "k1", and
    Flowise attaches the images "k1" and "k2". *)
Definition flaky : Env :=
  mkEnv "cli_a1b2" "secret" parse_examples
    (fun _ m =>
       match content m with
       | ImageContent (JStr "k1") => None
       | _ => Some lark_ok
       end)
    (fun _ _ =>
       Body (JObj [("text", JStr "pong");
                   ("artifacts", JArr [png "k1"; png "k2"])]))
    (fun _ => false)
    (fun _ _ => None).

Definition fresh : State := mkState ∅ [] [].

(** As [calm], but the chart file exists and Lark stores it as "img_1". *)
Definition charting : Env :=
  mkEnv "cli_a1b2" "secret" parse_examples
    (fun _ _ => Some lark_ok)
    (fun _ _ => Body (JObj [("text", JStr "pong")]))
    (fun _ => true)
    (fun _ _ => Some (JStr "img_1")).

(** A text message whose content is not JSON, and an image message. *)
Definition garbled : InboundEvent :=
  mkEvent "ev_1" "oc_1" "ou_1" "om_1" "text" "not json".

Definition sticker : InboundEvent :=
  mkEvent "ev_2" "oc_1" "ou_1" "om_2" "image" "{}".

Definition greeting : InboundEvent :=
  mkEvent "ev_3" "oc_1" "ou_1" "om_3" "text" (text_json "@_user_1 hello").

(** ** Vocabulary of the further properties *)

(** The application credentials pass the self-check. *)
Definition config_valid (E : Env) : bool :=
  negb (String.eqb (LARK_APP_ID E) "")
  && negb (String.eqb (LARK_APP_SECRET E) "")
  && startsWith "cli_" (LARK_APP_ID E).

(** The body is a verification handshake, or announces encryption. *)
Definition is_handshake (params : jsval) : bool :=
  match get params "type" with
  | Ok type => is_str type "url_verification"
  | Throw _ => false
  end.

Definition is_encrypted (params : jsval) : bool :=
  match get params "encrypt" with
  | Ok encrypt => truthy encrypt
  | Throw _ => false
  end.

(** A message-received body whose header carries no [event_id], and one
    whose sender carries no [user_id]. *)
Definition message_without_event_id (ev : InboundEvent) : jsval :=
  JObj
    [("header", JObj [("event_type", JStr "im.message.receive_v1")]);
     ("event",
      JObj [("sender",
             JObj [("sender_id", JObj [("user_id", JStr (senderId ev))])]);
            ("message",
             JObj [("message_id", JStr (messageId ev));
                   ("chat_id", JStr (chatId ev));
                   ("message_type", JStr (messageType ev));
                   ("content", JStr (rawContent ev))])])].

Definition message_without_user_id (ev : InboundEvent) : jsval :=
  JObj
    [("header",
      JObj [("event_id", JStr (eventId ev));
            ("event_type", JStr "im.message.receive_v1")]);
     ("event",
      JObj [("sender",
             JObj [("sender_id", JObj [("open_id", JStr (senderId ev))])]);
            ("message",
             JObj [("message_id", JStr (messageId ev));
                   ("chat_id", JStr (chatId ev));
                   ("message_type", JStr (messageType ev));
                   ("content", JStr (rawContent ev))])])].

(** The event with another sender. *)
Definition with_sender (sender : string) (ev : InboundEvent) : InboundEvent :=
  mkEvent (eventId ev) (chatId ev) sender (messageId ev) (messageType ev)
    (rawContent ev).

(** No character of [s] starts a line terminator. *)
Fixpoint no_line_terminator (s : string) : bool :=
  match s with
  | EmptyString => true
  | String _ s' => negb (line_terminator_next s) && no_line_terminator s'
  end.

(** The artifact has the type "png". *)
Definition is_png (artifact : jsval) : bool :=
  match get artifact "type" with
  | Ok type => is_str type "png"
  | Throw _ => false
  end.

Definition text_message (messageId : jsval) (text : string) : Message :=
  mkMessage messageId (TextContent text) (JStr "text").

Definition invalid_input_notice : string :=
  "⚠️ Invalid input received. Please provide a valid question.".

Definition apology : string :=
  "⚠️ An error occurred while processing your request.".

Definition is_lark_reply (e : Effect) : bool :=
  match e with
  | LarkReply _ _ => true
  | _ => false
  end.

(** [reply] finds no "png" artifact to send: [artifacts] is not iterable, or
    none of its entries has the type "png". *)
Definition no_png_artifact (artifacts : jsval) : bool :=
  match iterate (default_param artifacts (JArr [])) with
  | Ok items => forallb (fun artifact => negb (is_png artifact)) items
  | Throw _ => true
  end.

Definition chart_file : string := "/tmp/work_hours_histogram.png".

(** [handleReply] of part_000 takes the upload path for this question. *)
Definition asks_for_chart (question : string) : bool :=
  includes "histogram" (toLowerCase question)
  || includes "chart" (toLowerCase question).

(** Flowise cannot be reached; Lark accepts every message. *)
Definition offline : Env :=
  mkEnv "cli_a1b2" "secret" parse_examples
    (fun _ _ => Some lark_ok)
    (fun _ _ => FetchRejects)
    (fun _ => false)
    (fun _ _ => None).

(** As [charting], but Lark rejects the upload of the chart. *)
Definition upload_rejected : Env :=
  mkEnv "cli_a1b2" "secret" parse_examples
    (fun _ _ => Some lark_ok)
    (fun _ _ => Body (JObj [("text", JStr "pong")]))
    (fun _ => true)
    (fun _ _ => None).

(** A question about a chart, as [JSON.parse] returns it. *)
Definition chart_request : jsval := JObj [("text", JStr "@_user_1 show a Chart")].

(** [userInput.text] is a string. *)
Definition has_string_text (userInput : jsval) : bool :=
  match get userInput "text" with
  | Ok (JStr _) => true
  | _ => false
  end.

(** The message [replyWithImage] sends. *)
Definition image_message (messageId imageKey : jsval) : Message :=
  mkMessage messageId (ImageContent imageKey) (JStr "image").

Definition is_image_upload (e : Effect) : bool :=
  match e with
  | ImageCreate _ _ => true
  | _ => false
  end.

(** The body carries a message whose [message_type] is "text". *)
Definition is_text_event (params : jsval) : bool :=
  match get params "event" with
  | Ok event =>
      match get event "message" with
      | Ok message =>
          match get message "message_type" with
          | Ok type => is_str type "text"
          | Throw _ => false
          end
      | Throw _ => false
      end
  | Throw _ => false
  end.

(** ** The session store under the event loop

    A handler is suspended at every [await], and other handlers run in
    between.  The session store is touched by three pieces of code, each of
    which runs without interruption: the start of [queryFlowise] up to
    [await fetch] (index.js 105-114, part_000 121-130), the rest of that call
    once Flowise has answered (index.js 115-130, part_000 131-143), and the
    [delete] of [cmdClear] (index.js 100, part_000 115); a handler reaches
    the first and the last of them without an [await] on its way.  The map
    holds references to arrays, and a suspended call keeps in [history] the
    reference it read from the map or created: the arrays live in a heap.
    What Flowise answers, and when, is up to the run: the outcome is part of
    the step that resumes the call. *)

(** A call of [queryFlowise] suspended at [await fetch]: the array in its
    [history], and its [sessionId]. *)
Record Suspended : Type := mkSuspended {
  held : nat;
  session : string
}.

Record Store : Type := mkStore {
  arrays : gmap nat (list jsval);        (* the array objects, by reference *)
  allocated : nat;                       (* references given out so far *)
  sessions : gmap string nat;            (* [conversationHistories] *)
  suspended : gmap nat Suspended;        (* the suspended calls, by ticket *)
  issued : nat;                          (* tickets given out so far *)
  posted : list (string * string)        (* the contexts sent to Flowise,
                                            with the session of the call *)
}.


(** [conversationHistories.get(sessionId)], as the array it refers to. *)
Definition history_of (s : Store) (sessionId : string)
    : option (list jsval) :=
  ref ← sessions s !! sessionId; arrays s !! ref.

(** [queryFlowise] up to [await fetch]: [history] is the array of the map or
    a new one, the question is pushed onto it, the map is set, and the joined
    array is posted.  The value is the ticket of the suspended call; a [join]
    that throws ends the call in its [catch], with nothing posted. *)
Definition ask (question sessionId : string) (s : Store)
    : option nat * Store :=
  let ref := default (allocated s) (sessions s !! sessionId) in
  let allocated' :=
    match sessions s !! sessionId with
    | Some _ => allocated s
    | None => S (allocated s)
    end in
  let history := default [] (history_of s sessionId) ++ [JStr question] in
  let arrays' := <[ref := history]> (arrays s) in
  let sessions' := <[sessionId := ref]> (sessions s) in
  match join " " history with
  | Ok context =>
      (Some (issued s),
       mkStore arrays' allocated' sessions'
         (<[issued s := mkSuspended ref sessionId]> (suspended s))
         (S (issued s)) (posted s ++ [(sessionId, context)]))
  | Throw _ =>
      (None,
       mkStore arrays' allocated' sessions' (suspended s) (issued s)
         (posted s))
  end.

(** The rest of the call with the [ticket], once [fetch] and
    [response.json()] have settled with [out]: a truthy [result.text] is
    pushed onto the array the call holds, and the map is set to that array
    again; otherwise the call throws. *)
Definition resume (ticket : nat) (out : FetchOutcome) (s : Store) : Store :=
  match suspended s !! ticket with
  | None => s
  | Some call =>
      match answer_of out with
      | Some text =>
          mkStore
            (<[held call := default [] (arrays s !! held call) ++ [text]]>
               (arrays s))
            (allocated s)
            (<[session call := held call]> (sessions s))
            (delete ticket (suspended s)) (issued s) (posted s)
      | None =>
          mkStore (arrays s) (allocated s) (sessions s)
            (delete ticket (suspended s)) (issued s) (posted s)
      end
  end.

(** [conversationHistories.delete(sessionId)] of [cmdClear]. *)
Definition clear (sessionId : string) (s : Store) : Store :=
  mkStore (arrays s) (allocated s) (delete sessionId (sessions s))
    (suspended s) (issued s) (posted s).

(** What the event loop runs next. *)
Inductive Step : Type :=
| Ask (question sessionId : string)
| Resume (ticket : nat) (out : FetchOutcome)
| Clear (sessionId : string).

Definition step (x : Step) (s : Store) : Store :=
  match x with
  | Ask question sessionId => (ask question sessionId s).2
  | Resume ticket out => resume ticket out s
  | Clear sessionId => clear sessionId s
  end.


(** The session a step belongs to; a ticket that is not suspended belongs to
    none, and resuming it does nothing. *)
Definition step_session (x : Step) (s : Store) : option string :=
  match x with
  | Ask _ sessionId | Clear sessionId => Some sessionId
  | Resume ticket _ => session <$> suspended s !! ticket
  end.




(** The array and the session are used together: by the map, or by a
    suspended call. *)
Definition owns (s : Store) (ref : nat) (sessionId : string) : Prop :=
  sessions s !! sessionId = Some ref
  ∨ ∃ ticket, suspended s !! ticket = Some (mkSuspended ref sessionId).

(** What every run from [init] keeps: an array in use was allocated and
    belongs to one session, and a suspended ticket was issued. *)
Record well_formed (s : Store) : Prop := mkWellFormed {
  wf_allocated : ∀ ref sid, owns s ref sid → (ref < allocated s)%nat;
  wf_owner : ∀ ref sid sid', owns s ref sid → owns s ref sid' → sid = sid';
  wf_issued : ∀ t call, suspended s !! t = Some call → (t < issued s)%nat
}.


(** The map as the handlers that run one after another see it. *)
Definition view (s : Store) : gmap string (list jsval) :=
  omap (fun ref => arrays s !! ref) (sessions s).

(** ** Vocabulary of the acknowledgment *)

Definition encryption_notice : jsval :=
  JObj [("code", JNum 1);
        ("message", JStr "Encryption is enabled, please disable it.")].

(** What the handler reads off a message-received body before it looks
    into the processed set (index.js 199-208), and the [content] it reads
    on the text path. *)
Record Received : Type := mkReceived {
  received_id : jsval;
  received_message : jsval;
  received_type : jsval;
  received_session : string;
  received_content : jsval
}.

(** A TypeError when [event], [message], [sender] or [sender_id] is missing,
    or when an id cannot be printed into the session id. *)
Definition read_message (params : jsval) : result Received :=
  header ← get params "header";
  eventId ← get header "event_id";
  event ← get params "event";
  message ← get event "message";
  messageId ← get message "message_id";
  chatId ← get message "chat_id";
  messageType ← get message "message_type";
  sender ← get event "sender";
  sender_id ← get sender "sender_id";
  senderId ← get sender_id "user_id";
  sessionId ← sessionId_of chatId senderId;
  content ← get message "content";
  Ok (mkReceived eventId messageId messageType sessionId content).

(** The text path throws on this [content]: it cannot be printed, or the
    text it prints to is rejected. *)
Definition content_refused (E : Env) (content : jsval) : bool :=
  match ToString content with
  | Ok raw => content_rejected E raw
  | Throw _ => true
  end.

(** ** Vocabulary of the two versions *)

(** [artifacts] as [handleReply] of index.js destructures it. *)
Definition artifacts_of (flowiseResponse : jsval) : jsval :=
  match get flowiseResponse "artifacts" with
  | Ok artifacts => default_param artifacts (JArr [])
  | Throw _ => JArr []
  end.

(** What [reply] of index.js attempts for the answer of Flowise. *)
Definition answer_replies (E : Env) (messageId flowiseResponse : jsval)
    (st : State) : list Effect :=
  send_until_failure E (trace st)
    (reply_messages messageId (answer_text flowiseResponse)
       (artifacts_of flowiseResponse) JUndef).

(** The inputs on which the two versions of [handleReply] behave alike. *)
Definition versions_agree_on (E : Env) (userInput : jsval)
    (sessionId : string) (messageId : jsval) (st : State) : Prop :=
  match get userInput "text" with
  | Throw _ => True
  | Ok (JStr s) =>
      if String.eqb (question_of s) "" then False
      else if startsWith "/" (question_of s) then question_of s = "/clear"
      else
        match Index.queryFlowise E (question_of s) sessionId st with
        | (Throw _, _) => True
        | (Ok flowiseResponse, st1) =>
            if asks_for_chart (question_of s) then
              fs_existsSync E chart_file = false
              ∧ answer_replies E messageId flowiseResponse st1 =
                [LarkReply (text_message messageId apology)
                   (im_message_reply E (trace st1)
                      (text_message messageId apology))]
            else image_replies (answer_replies E messageId flowiseResponse st1)
                 = 0%nat
        end
  | Ok text => truthy text = true
  end.

(** * Properties *)

Ltac unfold_monad :=
  unfold try_catch, throw, lift, mbind, M_bind, mret, M_ret,
    result_bind, result_ret in *.

Section Fuel.

Lemma startsWith_drop_length d : ∀ s,
  startsWith d s = true →
  String.length (string_drop (String.length d) s) + String.length d =
  String.length s.
Proof.
  unfold startsWith.
  induction d as [|a d IH]; intros s Hprefix; simpl.
  - destruct s; simpl; lia.
  - destruct s as [|b s]; simpl in *; [discriminate|].
    destruct (ascii_dec a b); [|discriminate].
    specialize (IH s Hprefix). lia.
Qed.

Lemma lazy_until_shorter d : ∀ s group rest,
  lazy_until d s = Some (group, rest) →
  (String.length rest + String.length d ≤ String.length s)%nat.
Proof.
  induction s as [|c s IH]; intros group rest; cbn [lazy_until].
  - destruct (startsWith d "") eqn:Hprefix; [|discriminate].
    intros [= <- <-]. by rewrite (startsWith_drop_length d "" Hprefix).
  - destruct (startsWith d (String c s)) eqn:Hprefix.
    + intros [= <- <-].
      by rewrite (startsWith_drop_length d (String c s) Hprefix).
    + destruct (line_terminator_next (String c s)); [discriminate|].
      destruct (lazy_until d s) as [[g r]|] eqn:Hrec; [|discriminate].
      intros [= <- <-]. specialize (IH g r eq_refl). simpl. lia.
Qed.

Lemma match_here_shorter d s group rest :
  d ≠ "" →
  match_here d s = Some (group, rest) →
  (String.length rest < String.length s)%nat.
Proof.
  intros Hd. unfold match_here.
  destruct (startsWith d s) eqn:Hprefix; [|discriminate].
  intros Hlazy%lazy_until_shorter.
  pose proof (startsWith_drop_length d s Hprefix).
  destruct d; [done|]. simpl in *. lia.
Qed.

(** The fuel of [replace_all_spans] is enough: more fuel changes nothing. *)
Lemma replace_spans_fuel d l r :
  d ≠ "" →
  ∀ n m s, (String.length s < n)%nat → (String.length s < m)%nat →
    replace_spans d l r n s = replace_spans d l r m s.
Proof.
  intros Hd. induction n as [|n IH]; intros m s Hn Hm; [lia|].
  destruct m as [|m]; [lia|]. simpl.
  destruct (match_here d s) as [[group rest]|] eqn:Hmatch.
  - pose proof (match_here_shorter d s group rest Hd Hmatch).
    rewrite (IH m rest); [done|lia|lia].
  - destruct s as [|c s]; [done|]. simpl in *.
    rewrite (IH m s); [done|lia|lia].
Qed.
End Fuel.

Section Effects.
Context (E : Env).

Lemma add_trace_nil st : add_trace st [] = st.
Proof. destruct st; unfold add_trace; simpl. by rewrite app_nil_r. Qed.

Lemma add_trace_app st a b :
  add_trace (add_trace st a) b = add_trace st (a ++ b).
Proof. unfold add_trace; simpl. by rewrite app_assoc. Qed.

Lemma emit_add_trace e st : emit e st = add_trace st [e].
Proof. reflexivity. Qed.

Lemma get_data_of_type artifact type :
  get artifact "type" = Ok type → ∃ data, get artifact "data" = Ok data.
Proof. destruct artifact; simpl; intros; simplify_eq; eauto. Qed.

(** The loop sends the image messages until a call is rejected. *)
Lemma artifact_loop messageId items : ∀ st,
  ∃ r, for_each items (artifact_step E messageId) st =
       (r, add_trace st
             (send_until_failure E (trace st) (image_messages messageId items))).
Proof.
  induction items as [|artifact rest IH]; intros st; simpl.
  - exists (Ok tt). by rewrite add_trace_nil.
  - unfold_monad. unfold artifact_step at 1. unfold_monad.
    destruct (get artifact "type") as [type|e] eqn:Htype.
    + destruct (get_data_of_type _ _ Htype) as [data ->].
      destruct (is_str type "png"); simpl.
      * destruct (im_message_reply E (trace st) _) as [v|] eqn:Hsend.
        -- destruct (IH (emit (LarkReply (mkMessage messageId (ImageContent data)
                                 (JStr "image")) (Some v)) st)) as [r Hr].
           exists r. rewrite Hr, emit_add_trace, add_trace_app. reflexivity.
        -- exists (Throw LarkError). reflexivity.
      * apply IH.
    + exists (Throw e). by rewrite add_trace_nil.
Qed.

(** [Index.reply] never throws, touches neither store, and sends its
    messages until a call is rejected. *)
Lemma index_reply_spec messageId content artifacts msgType st :
  Index.reply E messageId content artifacts msgType st =
  (Ok JUndef,
   add_trace st
     (send_until_failure E (trace st)
        (reply_messages messageId content artifacts msgType))).
Proof.
  unfold Index.reply, reply_messages. unfold_monad.
  destruct (formatMarkdown_of content) as [formatted|e]; simpl.
  2: by rewrite add_trace_nil.
  destruct (im_message_reply E (trace st) _) as [v|] eqn:Hsend;
    [|reflexivity].
  destruct (iterate (default_param artifacts (JArr []))) as [items|e]; simpl.
  2: reflexivity.
  match goal with
  | |- context [for_each items ?f ?s] =>
      change f with (artifact_step E messageId);
      destruct (artifact_loop messageId items s) as [r ->]
  end.
  rewrite emit_add_trace, add_trace_app. simpl.
  destruct r; reflexivity.
Qed.
End Effects.

Section SessionStore.
Context (E : Env).

(** [queryFlowise] step by step: the question is stored, then the context
    is joined and posted, and the answer text is stored when it is truthy. *)
Lemma index_queryFlowise_spec q sid st :
  Index.queryFlowise E q sid st =
  let history := asked st sid q in
  let st1 := mkState (<[sid := history]> (conversationHistories st))
               (processedEvents st) (trace st ++ [HistorySet sid history]) in
  match join " " history with
  | Throw e => (Throw e, st1)
  | Ok context =>
      let out := flowise E (trace st1) context in
      let st2 := emit (FlowiseFetch context out) st1 in
      match out with
      | Body r =>
          match get r "text" with
          | Ok text =>
              if truthy text then
                (Ok r,
                 mkState (<[sid := history ++ [text]]> (conversationHistories st))
                   (processedEvents st)
                   (trace st2 ++ [HistorySet sid (history ++ [text])]))
              else (Throw (Error "Invalid response from Flowise API"), st2)
          | Throw e => (Throw e, st2)
          end
      | _ => (Throw FetchError, st2)
      end
  end.
Proof.
  unfold Index.queryFlowise, history_get, history_set, fetch_flowise, asked.
  unfold_monad. simpl.
  destruct (join " " _) as [context|e]; simpl; [|reflexivity].
  destruct (flowise E _ context) as [| |r]; simpl; try reflexivity.
  destruct (get r "text") as [text|e]; simpl; [|reflexivity].
  destruct (truthy text); simpl; [|reflexivity].
  by rewrite insert_insert_eq.
Qed.

Lemma index_queryFlowise_history q sid st :
  match Index.queryFlowise E q sid st with
  | (Throw _, st') =>
      conversationHistories st' =
      <[sid := asked st sid q]> (conversationHistories st)
  | (Ok result, st') =>
      ∃ text, get result "text" = Ok text ∧ truthy text = true ∧
        conversationHistories st' =
        <[sid := asked st sid q ++ [text]]> (conversationHistories st)
  end.
Proof.
  rewrite index_queryFlowise_spec. cbv zeta.
  destruct (join " " _) as [context|e]; [|reflexivity].
  destruct (flowise E _ context) as [| |r]; try reflexivity.
  destruct (get r "text") as [text|e] eqn:Htext; [|reflexivity].
  destruct (truthy text) eqn:Htruthy; [|reflexivity].
  exists text. by rewrite Htext.
Qed.

(** C4: when the call to the AnswerService fails (the fetch is rejected, the
    body does not parse, or the body has no truthy [text]) the history of
    the session is the history before the call followed by the question and
    nothing else; the answer text is appended exactly when the call
    succeeds. *)
Theorem queryFlowise_failure_keeps_question q sid st :
  (match Index.queryFlowise E q sid st with
   | (Throw _, st') =>
       conversationHistories st' =
       <[sid := default [] (conversationHistories st !! sid) ++ [JStr q]]>
         (conversationHistories st)
   | (Ok result, st') =>
       ∃ text, get result "text" = Ok text ∧ truthy text = true ∧
         conversationHistories st' =
         <[sid := default [] (conversationHistories st !! sid)
                  ++ [JStr q; text]]> (conversationHistories st)
   end)
  ∧ (∀ context, join " " (asked st sid q) = Ok context →
       match answer_of
               (flowise E (trace st ++ [HistorySet sid (asked st sid q)])
                  context)
       with
       | None =>
           completes (Index.queryFlowise E q sid st).1 = false
           ∧ conversationHistories (Index.queryFlowise E q sid st).2 =
             <[sid := default [] (conversationHistories st !! sid) ++ [JStr q]]>
               (conversationHistories st)
       | Some text =>
           (∃ result, (Index.queryFlowise E q sid st).1 = Ok result
                      ∧ get result "text" = Ok text)
           ∧ conversationHistories (Index.queryFlowise E q sid st).2 =
             <[sid := default [] (conversationHistories st !! sid)
                      ++ [JStr q; text]]> (conversationHistories st)
       end).
Proof.
  split.
  - pose proof (index_queryFlowise_history q sid st) as H.
    destruct (Index.queryFlowise E q sid st) as [[result|e] st']; [|exact H].
    destruct H as (text & Htext & Htruthy & Hst). exists text.
    unfold asked in Hst. by rewrite <- app_assoc in Hst.
  - intros context Hjoin. rewrite index_queryFlowise_spec. cbv zeta.
    rewrite Hjoin. unfold asked. simpl.
    destruct (flowise E _ context) as [| |r]; simpl; try done.
    destruct (get r "text") as [text|e] eqn:Htext; simpl; [|done].
    destruct (truthy text); simpl; [|done].
    split; [by exists r|]. by rewrite <- app_assoc.
Qed.

(** A call of [queryFlowise] only appends to the history of its session
    and leaves the other sessions alone. *)
Lemma index_queryFlowise_appends q sid st :
  ∃ ext,
    conversationHistories (Index.queryFlowise E q sid st).2 =
    <[sid := default [] (conversationHistories st !! sid) ++ ext]>
      (conversationHistories st).
Proof.
  pose proof (index_queryFlowise_history q sid st) as H.
  destruct (Index.queryFlowise E q sid st) as [[result|e] st']; simpl.
  - destruct H as (text & _ & _ & ->). exists [JStr q; text].
    unfold asked. by rewrite <- app_assoc.
  - rewrite H. by exists [JStr q].
Qed.

End SessionStore.

Section ReplyFormatter.
Context (E : Env).

Lemma effects_since_app st st' sent :
  trace st' = trace st ++ sent → effects_since st st' = sent.
Proof. unfold effects_since. intros ->. by rewrite drop_app_length. Qed.

Lemma effects_since_add_trace st sent :
  effects_since st (add_trace st sent) = sent.
Proof. by apply effects_since_app. Qed.

(** C7, as the code has it: [reply] tries the text message first and then
    one image message per "png" artifact, in the order of the artifacts,
    inside one [try]: the first rejected call ends the sequence, so the
    later artifacts are not attempted; nothing is thrown to the caller.
    With no artifacts the text message is the only attempt. *)
Theorem reply_sends_until_first_failure mid text arts st :
  Index.reply E mid (JStr text) (JArr arts) JUndef st =
    (Ok JUndef,
     add_trace st
       (send_until_failure E (trace st)
          (mkMessage mid (TextContent (formatMarkdown text)) (JStr "text")
           :: image_messages mid arts)))
  ∧ effects_since st (Index.reply E mid (JStr text) JUndef JUndef st).2 =
    [LarkReply
       (mkMessage mid (TextContent (formatMarkdown text)) (JStr "text"))
       (im_message_reply E (trace st)
          (mkMessage mid (TextContent (formatMarkdown text)) (JStr "text")))].
Proof.
  split.
  - by rewrite index_reply_spec.
  - rewrite index_reply_spec. simpl. rewrite effects_since_add_trace.
    by destruct (im_message_reply E _ _).
Qed.
End ReplyFormatter.

(** C7 as the spec states it fails: Lark rejects the image "k1", and the
    image "k2" that follows it is never attempted. *)
Lemma reply_failure_suppresses_later_artifacts :
  trace (Index.reply flaky (JStr "m1") (JStr "pong")
           (JArr [png "k1"; png "k2"]) JUndef fresh).2 =
  [LarkReply (mkMessage (JStr "m1") (TextContent "pong") (JStr "text"))
     (Some lark_ok);
   LarkReply (mkMessage (JStr "m1") (ImageContent (JStr "k1")) (JStr "image"))
     None]
  ∧ image_messages (JStr "m1") [png "k1"; png "k2"] =
    [mkMessage (JStr "m1") (ImageContent (JStr "k1")) (JStr "image");
     mkMessage (JStr "m1") (ImageContent (JStr "k2")) (JStr "image")].
Proof. split; reflexivity. Qed.

(** C8: the markup normalisation of "**bold** and *italic*" wraps exactly
    "bold" in the bold tag and exactly "italic" in the italic tag and keeps
    every other character. *)
Theorem formatMarkdown_bold_italic :
  formatMarkdown "**bold** and *italic*" = "<b>bold</b> and <i>italic</i>".
Proof. vm_compute. reflexivity. Qed.

Section SessionId.

Lemma append_same_length_inj (c c' s s' : string) :
  String.length c = String.length c' → c +:+ s = c' +:+ s' → c = c' ∧ s = s'.
Proof.
  revert c'. induction c as [|a c IH]; intros [|a' c'] Hlen Heq;
    simpl in *; try discriminate.
  - done.
  - injection Heq as -> Heq. injection Hlen as Hlen.
    destruct (IH c' Hlen Heq) as [-> ->]. done.
Qed.

(** C9, as the code has it: the SessionId is the concatenation of chatId
    and senderId without a separator; two different (chatId, senderId)
    pairs whose chatIds have the same length get different SessionIds. *)
Theorem sessionId_injective_same_length (c s c' s' : string) :
  String.length c = String.length c' →
  (c, s) ≠ (c', s') →
  sessionId_of (JStr c) (JStr s) = Ok (c +:+ s)
  ∧ sessionId_of (JStr c) (JStr s) ≠ sessionId_of (JStr c') (JStr s').
Proof.
  intros Hlen Hne. split; [reflexivity|].
  simpl. intros Heq. injection Heq as Heq.
  destruct (append_same_length_inj c c' s s' Hlen Heq) as [-> ->]. done.
Qed.
End SessionId.

Lemma sessionId_injective_same_length_witness :
  sessionId_of (JStr "oc_1") (JStr "u1") = Ok "oc_1u1"
  ∧ sessionId_of (JStr "oc_1") (JStr "u1") ≠ sessionId_of (JStr "oc_2") (JStr "u1").
Proof.
  apply (sessionId_injective_same_length "oc_1" "u1" "oc_2" "u1");
    [reflexivity | discriminate].
Defined.

(** C9 as the spec states it fails: two different pairs, one SessionId. *)
Lemma sessionId_collision :
  ("a", "bc") ≠ ("ab", "c")
  ∧ sessionId_of (JStr "a") (JStr "bc") = sessionId_of (JStr "ab") (JStr "c").
Proof. split; [discriminate | reflexivity]. Qed.

Section Dispatcher.
Context (E : Env).

Lemma text_replies_app a b :
  text_replies (a ++ b) = text_replies a + text_replies b.
Proof. unfold text_replies. by rewrite List.filter_app, length_app. Qed.

Lemma image_replies_app a b :
  image_replies (a ++ b) = image_replies a + image_replies b.
Proof. unfold image_replies. by rewrite List.filter_app, length_app. Qed.

Lemma text_replies_images mid items : ∀ tr,
  text_replies (send_until_failure E tr (image_messages mid items)) = 0.
Proof.
  induction items as [|artifact rest IH]; intros tr; simpl; [done|].
  destruct (get artifact "type") as [type|]; [|done].
  destruct (get artifact "data") as [data|]; [|done].
  destruct (is_str type "png"); simpl; [|apply IH].
  destruct (im_message_reply E tr _); [|done].
  unfold text_replies in *. simpl. apply IH.
Qed.

(** One call of [reply] attempts one text message when the content is a
    string, and nothing at all otherwise. *)
Lemma text_replies_reply mid c a t tr :
  text_replies (send_until_failure E tr (reply_messages mid c a t)) =
  match c with JStr _ => 1 | _ => 0 end.
Proof.
  unfold reply_messages.
  destruct c as [| | | |s| |]; simpl; try done.
  destruct (im_message_reply E tr _) as [v|]; [|done].
  destruct (iterate _) as [items|]; [|done].
  change (S (text_replies (send_until_failure E
    (tr ++ [LarkReply (mkMessage mid (TextContent (formatMarkdown s))
                         (default_param t (JStr "text"))) (Some v)])
    (image_messages mid items))) = 1).
  by rewrite text_replies_images.
Qed.

Lemma index_cmdHelp_spec mid st :
  Index.cmdHelp E mid st =
  (Ok JUndef,
   add_trace st
     (send_until_failure E (trace st)
        (reply_messages mid (JStr Index.helpText) (JStr "Help") JUndef))).
Proof.
  unfold Index.cmdHelp. unfold_monad. by rewrite index_reply_spec.
Qed.

Lemma index_cmdClear_spec sid mid st :
  Index.cmdClear E sid mid st =
  (Ok JUndef,
   add_trace
     (mkState (delete sid (conversationHistories st)) (processedEvents st)
        (trace st ++ [HistoryDelete sid]))
     (send_until_failure E (trace st ++ [HistoryDelete sid])
        (reply_messages mid (JStr "✅ Conversation history cleared.")
           JUndef JUndef))).
Proof.
  unfold Index.cmdClear, history_delete. unfold_monad.
  by rewrite index_reply_spec.
Qed.

Lemma one_reply_intro st st' pre mid c a t :
  processedEvents st' = processedEvents st →
  trace st' =
    trace st ++ pre ++
    send_until_failure E (trace st ++ pre) (reply_messages mid c a t) →
  text_replies pre = 0 →
  (forallb typed_answer pre = true → ∃ s, c = JStr s) →
  one_reply st st'.
Proof.
  intros Hp Ht Hpre Htyped. split; [done|].
  eexists. split; [exact Ht|].
  rewrite text_replies_app, Hpre, text_replies_reply.
  split; [destruct c; simpl; lia|].
  rewrite forallb_app. intros [Hty _]%andb_prop.
  by destruct (Htyped Hty) as [s ->].
Qed.

Lemma index_cmdProcess_spec action sid mid st r st' :
  Index.cmdProcess E action sid mid st = (r, st') →
  r = Ok JUndef ∧ one_reply st st'.
Proof.
  unfold Index.cmdProcess.
  destruct (String.eqb action "/help");
    [|destruct (String.eqb action "/clear")];
    rewrite ?index_cmdHelp_spec, ?index_cmdClear_spec;
    intros [= <- <-]; (split; [done|]).
  - eapply (one_reply_intro st _ [] mid (JStr Index.helpText) (JStr "Help")
              JUndef); eauto.
    by rewrite app_nil_l, app_nil_r.
  - eapply (one_reply_intro st _ [HistoryDelete sid] mid
              (JStr "✅ Conversation history cleared.") JUndef JUndef); eauto.
    simpl. by rewrite <- app_assoc.
  - eapply (one_reply_intro st _ [] mid (JStr Index.helpText) (JStr "Help")
              JUndef); eauto.
    by rewrite app_nil_l, app_nil_r.
Qed.

Lemma typed_answer_string context result text :
  get result "text" = Ok text → truthy text = true →
  typed_answer (FlowiseFetch context (Body result)) = true →
  ∃ s, text = JStr s.
Proof.
  unfold typed_answer. intros -> Htruthy.
  destruct text; rewrite ?Htruthy; try discriminate. eauto.
Qed.

(** [handleReply] throws exactly on the inputs of [input_rejected], before
    any effect; otherwise it returns nothing and replies once. *)
Lemma index_handleReply_spec u sid mid st r st' :
  Index.handleReply E u sid mid st = (r, st') →
  match r with
  | Throw _ => input_rejected u = true ∧ st' = st
  | Ok v => v = JUndef ∧ input_rejected u = false ∧ one_reply st st'
  end.
Proof.
  unfold Index.handleReply, input_rejected. unfold_monad.
  destruct (get u "text") as [text|e]; simpl; [|by intros [= <- <-]].
  assert (Hinvalid : ∀ r st',
    Index.reply E mid
      (JStr "⚠️ Invalid input received. Please provide a valid question.")
      JUndef JUndef st = (r, st') →
    r = Ok JUndef ∧ one_reply st st').
  { intros r0 st0. rewrite index_reply_spec. intros [= <- <-].
    split; [done|].
    eapply (one_reply_intro st _ [] mid
              (JStr "⚠️ Invalid input received. Please provide a valid question.")
              JUndef JUndef); eauto.
    simpl. by rewrite app_nil_r. }
  destruct (truthy text) eqn:Htruthy.
  - destruct text as [| | | |s| |]; try (by intros [= <- <-]).
    destruct (trim (replace_first "@_user_1" "" s)) as [|c question].
    { intros H. by destruct (Hinvalid _ _ H) as [-> ?]. }
    destruct (startsWith "/" (String c question)).
    { intros H. by destruct (index_cmdProcess_spec _ _ _ _ _ _ H) as [-> ?]. }
    rewrite index_queryFlowise_spec. cbv zeta.
    set (history := asked st sid (String c question)).
    destruct (join " " history) as [context|e].
    2: { rewrite index_reply_spec. intros [= <- <-].
         split; [done|]. split; [done|].
         eapply (one_reply_intro st _ [HistorySet sid history] mid
                   (JStr "⚠️ An error occurred while processing your request.") JUndef JUndef); eauto.
         simpl. by rewrite <- !app_assoc. }
    destruct (flowise E _ context) as [| |result] eqn:Hout.
    1, 2: rewrite index_reply_spec; intros [= <- <-];
      (split; [done|]); (split; [done|]);
      eapply (one_reply_intro st _
                [HistorySet sid history; FlowiseFetch context _] mid
                (JStr "⚠️ An error occurred while processing your request.") JUndef JUndef); eauto;
      simpl; by rewrite <- !app_assoc.
    destruct (get result "text") as [answer|e] eqn:Hanswer.
    2: { rewrite index_reply_spec. intros [= <- <-].
         split; [done|]. split; [done|].
         eapply (one_reply_intro st _
                   [HistorySet sid history; FlowiseFetch context _] mid
                   (JStr "⚠️ An error occurred while processing your request.") JUndef JUndef); eauto.
         simpl. by rewrite <- !app_assoc. }
    destruct (truthy answer) eqn:Hanswer_truthy.
    2: { rewrite index_reply_spec. intros [= <- <-].
         split; [done|]. split; [done|].
         eapply (one_reply_intro st _
                   [HistorySet sid history; FlowiseFetch context _] mid
                   (JStr "⚠️ An error occurred while processing your request.") JUndef JUndef); eauto.
         simpl. by rewrite <- !app_assoc. }
    destruct (get result "artifacts") as [artifacts|e] eqn:Hartifacts.
    2: { destruct result; simpl in *; discriminate. }
    rewrite Hanswer, index_reply_spec. intros [= <- <-].
    split; [done|]. split; [done|].
    eapply (one_reply_intro st _
              [HistorySet sid history; FlowiseFetch context (Body result);
               HistorySet sid (history ++ [answer])] mid answer
              (default_param artifacts (JArr [])) JUndef); eauto.
    + simpl. by rewrite <- !app_assoc.
    + simpl. rewrite andb_true_r. intros Hty.
      eapply (typed_answer_string context result); eauto.
  - intros H. destruct (Hinvalid _ _ H) as [-> ?].
    split; [done|]. split; [|done].
    destruct text; simpl in *; try done.
Qed.

Lemma index_webhook_message_received ev st :
  Index.webhook E (message_received ev) st =
  if seen (eventId ev) st then (Ok duplicate_event, st)
  else if negb (String.eqb (messageType ev) "text") then
    (Ok (JObj [("code", JNum 0)]),
     add_trace (marked (eventId ev) st)
       [LarkReply (only_text_message ev)
          (im_message_reply E (trace (marked (eventId ev) st))
             (only_text_message ev))])
  else
    match JSON_parse E (rawContent ev) with
    | None => (Throw SyntaxError, marked (eventId ev) st)
    | Some userInput =>
        Index.handleReply E userInput (chatId ev +:+ senderId ev)
          (JStr (messageId ev)) (marked (eventId ev) st)
    end.
Proof.
  unfold Index.webhook, message_received, processed_has, processed_add, parse,
    seen.
  unfold_monad. simpl.
  destruct (existsb _ (processedEvents st)) eqn:Hseen; [reflexivity|].
  unfold marked. rewrite ?Hseen.
  destruct (String.eqb (messageType ev) "text"); simpl.
  - destruct (JSON_parse E (rawContent ev)) as [userInput|]; [|reflexivity].
    by destruct (Index.handleReply E userInput _ _ _) as [[v|e] st'].
  - rewrite index_reply_spec. simpl. unfold only_text_message.
    by destruct (im_message_reply E _ _).
Qed.

(** C6: a message-received event that is not a duplicate and whose
    messageType is not "text" gets exactly one reply, the fixed "Only text
    messages are supported." text, attempted once; the handler returns
    {code: 0}; Flowise is not called and the history of every session is
    what it was. *)
Theorem non_text_event_single_notice ev st :
  seen (eventId ev) st = false →
  messageType ev ≠ "text" →
  (Index.webhook E (message_received ev) st).1 = Ok (JObj [("code", JNum 0)])
  ∧ conversationHistories (Index.webhook E (message_received ev) st).2 =
    conversationHistories st
  ∧ effects_since st (Index.webhook E (message_received ev) st).2 =
    [ProcessedAdd (JStr (eventId ev));
     LarkReply (only_text_message ev)
       (im_message_reply E (trace st ++ [ProcessedAdd (JStr (eventId ev))])
          (only_text_message ev))]
  ∧ text_replies (effects_since st (Index.webhook E (message_received ev) st).2)
    = 1
  ∧ existsb is_fetch
      (effects_since st (Index.webhook E (message_received ev) st).2) = false.
Proof.
  intros Hseen Htype. rewrite index_webhook_message_received, Hseen.
  apply String.eqb_neq in Htype. rewrite Htype. simpl.
  rewrite (effects_since_app st _
             [ProcessedAdd (JStr (eventId ev));
              LarkReply (only_text_message ev)
                (im_message_reply E (trace st ++ [ProcessedAdd (JStr (eventId ev))])
                   (only_text_message ev))]).
  - done.
  - simpl. by rewrite <- app_assoc.
Qed.

Lemma seen_marked id st : seen id (marked id st) = true.
Proof.
  unfold seen, marked. simpl. rewrite existsb_app. simpl.
  rewrite String.eqb_refl. by rewrite orb_true_r.
Qed.

Lemma one_reply_seen id st st' :
  one_reply st st' → seen id st = true → seen id st' = true.
Proof. intros [Hp _]. unfold seen. by rewrite Hp. Qed.

(** The first delivery of an event: the id is in the set afterwards, and
    when it was not there before its insertion is the first effect. *)
Lemma index_webhook_marks ev st :
  seen (eventId ev) (Index.webhook E (message_received ev) st).2 = true
  ∧ (seen (eventId ev) st = false →
     ∃ sent,
       trace (Index.webhook E (message_received ev) st).2 =
       trace st ++ ProcessedAdd (JStr (eventId ev)) :: sent
       ∧ (text_replies sent ≤ 1)%nat
       ∧ (completes (Index.webhook E (message_received ev) st).1 = true →
          forallb typed_answer sent = true → text_replies sent = 1)).
Proof.
  rewrite index_webhook_message_received.
  destruct (seen (eventId ev) st) eqn:Hseen; [by split|].
  pose proof (seen_marked (eventId ev) st) as Hmarked.
  destruct (negb (String.eqb (messageType ev) "text")).
  { split; [exact Hmarked|]. intros _. eexists. split.
    - simpl. rewrite <- app_assoc. reflexivity.
    - split; [|done]. unfold text_replies; simpl; lia. }
  destruct (JSON_parse E (rawContent ev)) as [userInput|].
  2: { split; [exact Hmarked|]. intros _. exists [].
       split_and!; simpl; try done; unfold text_replies; simpl; lia. }
  destruct (Index.handleReply E userInput _ _ _) as [r st'] eqn:Hrun.
  apply index_handleReply_spec in Hrun.
  destruct r as [v|e].
  - destruct Hrun as (-> & _ & Hone). split.
    + by apply (one_reply_seen _ _ _ Hone).
    + intros _. destruct Hone as (_ & sent & Htrace & Hle & Hone').
      exists sent. simpl in *. rewrite Htrace, <- app_assoc.
      by split_and!.
  - destruct Hrun as (_ & ->). split; [exact Hmarked|].
    intros _. exists [].
    split_and!; simpl; try done; unfold text_replies; simpl; lia.
Qed.

Lemma effects_since_refl st : effects_since st st = [].
Proof. unfold effects_since. by rewrite drop_all. Qed.

(** C1, as the code has it: of two deliveries of one message-received event
    the second returns {code: 0, message: "Duplicate event"} and has no
    effect at all; on the first delivery of a new event the insertion of the
    eventId into the processed set is the first effect, before any reply,
    history mutation or Flowise call; the two deliveries together attempt at
    most one text reply, and exactly one when the first delivery is handled
    to the end and the answer text of Flowise, if any, is a string. *)
Theorem duplicate_event_is_dropped ev st :
  let first := Index.webhook E (message_received ev) st in
  let second := Index.webhook E (message_received ev) first.2 in
  second = (Ok duplicate_event, first.2)
  ∧ (seen (eventId ev) st = true → first = (Ok duplicate_event, st))
  ∧ (seen (eventId ev) st = false →
     ∃ sent,
       effects_since st first.2 = ProcessedAdd (JStr (eventId ev)) :: sent)
  ∧ (text_replies (effects_since st second.2) ≤ 1)%nat
  ∧ (seen (eventId ev) st = false →
     completes first.1 = true →
     forallb typed_answer (effects_since st first.2) = true →
     text_replies (effects_since st second.2) = 1).
Proof.
  cbv zeta.
  destruct (index_webhook_marks ev st) as [Hmark Hfirst].
  assert (Hsecond :
    Index.webhook E (message_received ev)
      (Index.webhook E (message_received ev) st).2 =
    (Ok duplicate_event, (Index.webhook E (message_received ev) st).2)).
  { rewrite (index_webhook_message_received ev (Index.webhook E _ st).2).
    by rewrite Hmark. }
  rewrite Hsecond. simpl.
  split; [done|]. split.
  { intros Hseen. by rewrite index_webhook_message_received, Hseen. }
  destruct (seen (eventId ev) st) eqn:Hseen.
  - rewrite index_webhook_message_received, Hseen. simpl.
    rewrite effects_since_refl.
    split_and!; try done. unfold text_replies; simpl; lia.
  - destruct (Hfirst eq_refl) as (sent & Htrace & Hle & Hone).
    rewrite (effects_since_app st _ _ Htrace).
    split_and!.
    + intros _. by exists sent.
    + exact Hle.
    + intros _ Hok Htyped. by apply Hone.
Qed.

End Dispatcher.

Section Versions.
Context (E : Env).

(** [Part000.reply] sends the text message of [Index.reply] and no image. *)
Lemma part000_reply_spec mid c t st :
  ∃ r, Part000.reply E mid c t st =
       (Ok r,
        add_trace st
          (send_until_failure E (trace st) (reply_messages mid c JUndef t))).
Proof.
  unfold Part000.reply, reply_messages. unfold_monad.
  destruct (formatMarkdown_of c) as [formatted|e]; simpl.
  2: { exists JUndef. by rewrite add_trace_nil. }
  destruct (im_message_reply E (trace st) _) as [v|]; eauto.
Qed.

(** The two [queryFlowise] differ in their value only. *)
Lemma part000_queryFlowise_spec q sid st :
  Part000.queryFlowise E q sid st =
  match Index.queryFlowise E q sid st with
  | (Ok result, st') => (Ok (answer_text result), st')
  | (Throw e, st') => (Throw e, st')
  end.
Proof.
  unfold Part000.queryFlowise, Index.queryFlowise, answer_text.
  unfold_monad. simpl.
  destruct (join " " _) as [context|e]; simpl; [|reflexivity].
  destruct (flowise E _ context) as [| |r]; simpl; try reflexivity.
  destruct (get r "text") as [text|e] eqn:Htext; simpl; [|reflexivity].
  destruct (truthy text); simpl; [|reflexivity].
  by rewrite Htext.
Qed.

Lemma index_queryFlowise_trace q sid st :
  ∃ pre, trace (Index.queryFlowise E q sid st).2 = trace st ++ pre.
Proof.
  rewrite index_queryFlowise_spec. cbv zeta.
  destruct (join " " _) as [context|e]; simpl; [|eauto].
  destruct (flowise E _ context) as [| |r]; simpl;
    try (rewrite <- app_assoc; eauto).
  destruct (get r "text") as [text|e]; simpl;
    try (rewrite <- app_assoc; eauto).
  destruct (truthy text); simpl; rewrite <- ?app_assoc; eauto.
Qed.

Lemma image_messages_first mid items m rest :
  image_messages mid items = m :: rest →
  ∀ r, is_image_reply (LarkReply m r) = true.
Proof.
  induction items as [|artifact items IH]; simpl; [discriminate|].
  destruct (get artifact "type") as [type|]; [|discriminate].
  destruct (get artifact "data") as [data|]; [|discriminate].
  destruct (is_str type "png"); [|exact IH].
  by intros [= <- _].
Qed.

(** When no image goes out, [Index.reply] has sent what [Part000.reply]
    sends. *)
Lemma no_image_same_messages mid c a t tr :
  image_replies (send_until_failure E tr (reply_messages mid c a t)) = 0 →
  send_until_failure E tr (reply_messages mid c a t) =
  send_until_failure E tr (reply_messages mid c JUndef t).
Proof.
  unfold reply_messages.
  destruct (formatMarkdown_of c) as [formatted|e]; simpl; [|done].
  destruct (im_message_reply E tr _) as [v|]; [|done].
  destruct (iterate (default_param a (JArr []))) as [items|e]; [|done].
  destruct (image_messages mid items) as [|m rest] eqn:Himages; [done|].
  pose proof (image_messages_first _ _ _ _ Himages None) as Himage.
  simpl in Himage. unfold image_replies. simpl.
  by destruct (content m).
Qed.

End Versions.

(** C1 as the spec states it fails: the content of [garbled] is not JSON, the
    first delivery throws after the insertion of the id, the second is a
    duplicate, and no reply is ever attempted. *)
Lemma malformed_content_gets_no_reply :
  Index.webhook calm (message_received garbled) fresh =
    (Throw SyntaxError, marked "ev_1" fresh)
  ∧ Index.webhook calm (message_received garbled) (marked "ev_1" fresh) =
    (Ok duplicate_event, marked "ev_1" fresh)
  ∧ text_replies (trace (marked "ev_1" fresh)) = 0.
Proof. split_and!; reflexivity. Qed.

(** The first delivery of "@_user_1 hello" asks Flowise "hello" and replies
    once; the second delivery does nothing. *)
Example greeting_delivered_twice :
  effects_since fresh (Index.webhook calm (message_received greeting) fresh).2 =
    [ProcessedAdd (JStr "ev_3");
     HistorySet "oc_1ou_1" [JStr "hello"];
     FlowiseFetch "hello" (Body (JObj [("text", JStr "pong")]));
     HistorySet "oc_1ou_1" [JStr "hello"; JStr "pong"];
     LarkReply (mkMessage (JStr "om_3") (TextContent "pong") (JStr "text"))
       (Some lark_ok)]
  ∧ Index.webhook calm (message_received greeting)
      (Index.webhook calm (message_received greeting) fresh).2 =
    (Ok duplicate_event, (Index.webhook calm (message_received greeting) fresh).2).
Proof. split; reflexivity. Qed.

(** C2 as the spec states it fails: a message-received body without [event]
    makes the handler throw. *)
Lemma webhook_throws_on_missing_event :
  Index.webhook calm
    (JObj [("header",
            JObj [("event_id", JStr "ev_4");
                  ("event_type", JStr "im.message.receive_v1")])])
    fresh =
  (Throw TypeError, fresh).
Proof. reflexivity. Qed.

Lemma non_text_event_single_notice_witness :
  seen (eventId sticker) fresh = false
  ∧ messageType sticker ≠ "text"
  ∧ (Index.webhook calm (message_received sticker) fresh).1 =
    Ok (JObj [("code", JNum 0)])
  ∧ text_replies
      (effects_since fresh (Index.webhook calm (message_received sticker) fresh).2)
    = 1.
Proof.
  split; [reflexivity|]. split; [discriminate|].
  destruct (non_text_event_single_notice calm sticker fresh eq_refl
              ltac:(discriminate)) as (Hcode & _ & _ & Hone & _).
  by split.
Defined.

(** C10 as stated fails: with no [text] index.js replies with the notice,
    part_000 throws before any reply; and a question about a chart takes the
    upload path in part_000 only. *)
Lemma versions_differ :
  Index.handleReply calm (JObj []) "s" (JStr "om_5") fresh =
    (Ok JUndef,
     add_trace fresh
       [LarkReply
          (mkMessage (JStr "om_5")
             (TextContent
                "⚠️ Invalid input received. Please provide a valid question.")
             (JStr "text"))
          (Some lark_ok)])
  ∧ Part000.handleReply calm (JObj []) "s" (JStr "om_5") fresh =
    (Throw TypeError, fresh)
  ∧ image_replies
      (trace (Index.handleReply charting (JObj [("text", JStr "show a Chart")])
                "s" (JStr "om_6") fresh).2) = 0
  ∧ image_replies
      (trace (Part000.handleReply charting
                (JObj [("text", JStr "show a Chart")]) "s" (JStr "om_6")
                fresh).2) = 1.
Proof. split_and!; reflexivity. Qed.

(** The handshake echoes the challenge, and an application id without the
    prefix fails the self-check. *)
Example url_verification_echo :
  Index.webhook calm
    (JObj [("type", JStr "url_verification"); ("challenge", JStr "abc")]) fresh =
  (Ok (JObj [("challenge", JStr "abc")]), fresh).
Proof. reflexivity. Qed.

Example self_check_prefix :
  Index.webhook
    (mkEnv "app_a1b2" "secret" parse_examples (fun _ _ => None)
       (fun _ _ => FetchRejects) (fun _ => false) (fun _ _ => None))
    (JObj []) fresh =
  (Ok (JObj [("code", JNum 1);
             ("message", JStr "Lark App ID must start with 'cli_'")]),
   fresh).
Proof. reflexivity. Qed.

(** * Further properties *)

Section Markup.

Lemma includes_false_inv d s :
  includes d s = false →
  startsWith d s = false
  ∧ match s with EmptyString => True | String _ s' => includes d s' = false end.
Proof. destruct s; simpl; intros [? ?]%orb_false_elim; by split. Qed.

Lemma append_cons c x y : String c x +:+ y = String c (x +:+ y).
Proof. reflexivity. Qed.

Lemma append_empty y : "" +:+ y = y.
Proof. reflexivity. Qed.

Lemma startsWith_cons a d c s :
  startsWith (String a d) (String c s) =
  if ascii_dec a c then startsWith d s else false.
Proof. reflexivity. Qed.

Lemma startsWith_empty s : startsWith "" s = true.
Proof. by destruct s. Qed.

Lemma no_star_head c s t :
  includes "*" (String c s) = false → startsWith (String "*" t) (String c s) = false.
Proof.
  intros [Hhead _]%includes_false_inv.
  rewrite startsWith_cons in *. rewrite startsWith_empty in Hhead.
  by destruct (ascii_dec "*" c).
Qed.

Lemma includes_star_append x y :
  includes "*" (x +:+ y) = includes "*" x || includes "*" y.
Proof.
  induction x as [|c x IH]; [by destruct y|].
  rewrite append_cons. cbn [includes].
  rewrite IH, !startsWith_cons, !startsWith_empty.
  by destruct (ascii_dec "*" c).
Qed.

(** A delimiter that does not occur leaves the text as it is. *)
Lemma replace_spans_absent t l r : ∀ n s,
  includes "*" s = false → replace_spans (String "*" t) l r n s = s.
Proof.
  induction n as [|n IH]; intros s Hs; [done|]. simpl.
  destruct s as [|c s]; [by destruct t|].
  unfold match_here. rewrite (no_star_head c s t Hs).
  rewrite IH; [done|]. by destruct (includes_false_inv _ _ Hs).
Qed.

(** The scan copies a prefix without asterisks, one character per step. *)
Lemma replace_spans_copy t l r a : ∀ n rest,
  includes "*" a = false →
  replace_spans (String "*" t) l r (String.length a + n) (a +:+ rest) =
  a +:+ replace_spans (String "*" t) l r n rest.
Proof.
  induction a as [|c a IH]; intros n rest Ha; [done|].
  rewrite append_cons. cbn [String.length Nat.add replace_spans].
  unfold match_here.
  assert (Hhead : startsWith (String "*" t) (String c (a +:+ rest)) = false).
  { apply includes_false_inv in Ha as [Hhead _].
    rewrite startsWith_cons in *. rewrite startsWith_empty in Hhead.
    by destruct (ascii_dec "*" c). }
  rewrite Hhead, IH; [done|]. by destruct (includes_false_inv _ _ Ha).
Qed.

Lemma startsWith_append d s : startsWith d (d +:+ s) = true.
Proof.
  induction d as [|c d IH]; [apply startsWith_empty|].
  rewrite append_cons, startsWith_cons.
  by destruct (ascii_dec c c).
Qed.

Lemma string_drop_append d s : string_drop (String.length d) (d +:+ s) = s.
Proof.
  induction d as [|c d IH]; [by destruct s|].
  by rewrite append_cons.
Qed.

Lemma line_terminator_next_before_star x b t :
  line_terminator_next (String x (b +:+ String "*" t)) =
  line_terminator_next (String x b).
Proof.
  destruct b as [|y [|z b]]; rewrite ?append_cons, ?append_empty;
    cbn [line_terminator_next].
  - destruct t; [done|].
    change (nat_of_ascii "*" =? 128)%nat with false.
    by rewrite andb_false_r.
  - change (nat_of_ascii "*" =? 168)%nat with false.
    change (nat_of_ascii "*" =? 169)%nat with false.
    by rewrite andb_false_r.
  - done.
Qed.

(** The lazy group stops at the first closing delimiter. *)
Lemma lazy_until_closing t b c :
  includes "*" b = false → no_line_terminator b = true →
  lazy_until (String "*" t) (b +:+ String "*" t +:+ c) = Some (b, c).
Proof.
  induction b as [|x b IH]; intros Hb Hline.
  - rewrite append_empty.
    assert (Hstep : ∀ s, startsWith (String "*" t) s = true →
              lazy_until (String "*" t) s =
              Some ("", string_drop (String.length (String "*" t)) s)).
    { intros s Hs. destruct s; cbn [lazy_until]; by rewrite Hs. }
    rewrite Hstep; [|apply startsWith_append].
    by rewrite string_drop_append.
  - rewrite append_cons. cbn [lazy_until].
    assert (Hhead :
      startsWith (String "*" t) (String x (b +:+ String "*" t +:+ c)) = false).
    { apply includes_false_inv in Hb as [Hhead _].
      rewrite startsWith_cons in *. rewrite startsWith_empty in Hhead.
      by destruct (ascii_dec "*" x). }
    rewrite Hhead, (append_cons "*" t c), line_terminator_next_before_star.
    cbn [no_line_terminator] in Hline.
    apply andb_prop in Hline as [Hx Hrest].
    apply negb_true_iff in Hx. rewrite Hx, <- (append_cons "*" t c).
    rewrite IH; [done| |done]. by destruct (includes_false_inv _ _ Hb).
Qed.

(** No closing delimiter, no match. *)
Lemma lazy_until_absent t : ∀ s,
  includes "*" s = false → lazy_until (String "*" t) s = None.
Proof.
  induction s as [|c s IH]; intros Hs.
  - unfold lazy_until. by destruct t.
  - cbn [lazy_until]. rewrite (no_star_head c s t Hs).
    destruct (line_terminator_next (String c s)); [done|].
    rewrite IH; [done|]. by destruct (includes_false_inv _ _ Hs).
Qed.

Lemma match_here_at_delimiter d rest :
  match_here d (d +:+ rest) = lazy_until d rest.
Proof.
  unfold match_here. by rewrite startsWith_append, string_drop_append.
Qed.

Lemma length_append_string (x y : string) :
  String.length (x +:+ y) = (String.length x + String.length y)%nat.
Proof.
  induction x as [|c x IH]; [done|]. rewrite append_cons. simpl. by rewrite IH.
Qed.

(** A line terminator inside the group makes the lazy match fail. *)
Lemma lazy_until_line_break t c : ∀ m,
  includes "*" m = false → no_line_terminator m = false →
  lazy_until (String "*" t) (m +:+ String "*" t +:+ c) = None.
Proof.
  induction m as [|x m IH]; intros Hm Hline; [discriminate|].
  rewrite append_cons. cbn [lazy_until].
  assert (Hhead :
    startsWith (String "*" t) (String x (m +:+ String "*" t +:+ c)) = false).
  { apply includes_false_inv in Hm as [Hhead _].
    rewrite startsWith_cons in *. rewrite startsWith_empty in Hhead.
    by destruct (ascii_dec "*" x). }
  rewrite Hhead, (append_cons "*" t c), line_terminator_next_before_star.
  destruct (line_terminator_next (String x m)) eqn:Hx; [done|].
  cbn [no_line_terminator] in Hline. rewrite Hx in Hline.
  rewrite <- (append_cons "*" t c), IH; [done| |done].
  by destruct (includes_false_inv _ _ Hm).
Qed.

(** One asterisk that opens no bold span is copied by the first pass. *)
Lemma bold_pass_skips_asterisk l r n rest :
  match_here "**" (String "*" rest) = None →
  replace_spans "**" l r (S n) (String "*" rest) =
  String "*" (replace_spans "**" l r n rest).
Proof. intros Hnone. cbn [replace_spans]. by rewrite Hnone. Qed.

Lemma no_bold_before_text m rest :
  includes "*" m = false →
  match_here "**" (String "*" (m +:+ String "*" rest)) = None
  ∨ m = "".
Proof.
  intros Hm. destruct m as [|x m]; [by right|]. left.
  unfold match_here. rewrite append_cons, !startsWith_cons.
  apply includes_false_inv in Hm as [Hhead _].
  rewrite startsWith_cons, startsWith_empty in Hhead.
  destruct (ascii_dec "*" "*"); [|done]. by destruct (ascii_dec "*" x).
Qed.

Lemma no_bold_at_last_asterisk c :
  includes "*" c = false → match_here "**" (String "*" c) = None.
Proof.
  intros Hc. unfold match_here. rewrite startsWith_cons.
  destruct (ascii_dec "*" "*"); [|done].
  destruct c as [|x c]; [done|].
  apply includes_false_inv in Hc as [Hhead _].
  rewrite !startsWith_cons, startsWith_empty in *.
  by destruct (ascii_dec "*" x).
Qed.

(** The first pass leaves [a*m*c] as it is. *)
Lemma bold_pass_keeps_single_asterisks l r a m c n :
  includes "*" a = false → includes "*" m = false → includes "*" c = false →
  replace_spans "**" l r
    (String.length a + S (String.length m + S n))
    (a +:+ "*" +:+ m +:+ "*" +:+ c) =
  a +:+ "*" +:+ m +:+ "*" +:+ c.
Proof.
  intros Ha Hm Hc.
  rewrite (replace_spans_copy "*" l r a); [|done].
  rewrite (append_cons "*" "" (m +:+ "*" +:+ c)), append_empty.
  assert (Hfirst : match_here "**" (String "*" (m +:+ "*" +:+ c)) = None).
  { destruct (no_bold_before_text m ("" +:+ c) Hm) as [Hnone| ->].
    - exact Hnone.
    - rewrite append_empty.
      change (String "*" ("*" +:+ c)) with ("**" +:+ c).
      rewrite match_here_at_delimiter. by apply lazy_until_absent. }
  rewrite bold_pass_skips_asterisk; [|exact Hfirst].
  rewrite (replace_spans_copy "*" l r m); [|done].
  rewrite (append_cons "*" "" c), append_empty.
  rewrite bold_pass_skips_asterisk; [|by apply no_bold_at_last_asterisk].
  by rewrite replace_spans_absent.
Qed.

(** X1: a text without asterisks is sent as it is. *)
Theorem formatMarkdown_without_asterisk s :
  includes "*" s = false → formatMarkdown s = s.
Proof.
  intros Hs. unfold formatMarkdown, replace_all_spans.
  rewrite (replace_spans_absent "*"); [|done].
  by rewrite (replace_spans_absent "").
Qed.

Lemma replace_all_spans_fuel d l r s n :
  d ≠ "" → (String.length s < n)%nat →
  replace_all_spans d l r s = replace_spans d l r n s.
Proof.
  intros Hd Hn. unfold replace_all_spans.
  apply replace_spans_fuel; [done|lia|done].
Qed.

Lemma no_asterisk_in_tagged a l b r c :
  includes "*" a = false → includes "*" l = false → includes "*" b = false →
  includes "*" r = false → includes "*" c = false →
  includes "*" (a +:+ l +:+ b +:+ r +:+ c) = false.
Proof.
  intros Ha Hl Hb Hr Hc. rewrite !includes_star_append.
  by rewrite Ha, Hl, Hb, Hr, Hc.
Qed.

(** X2: a bold span.  In a text whose only asterisks are one pair of double
    asterisks around a group without line break, the pair becomes the bold
    tag around exactly that group and nothing else changes. *)
Theorem formatMarkdown_bold_span a b c :
  includes "*" a = false → includes "*" b = false →
  no_line_terminator b = true → includes "*" c = false →
  formatMarkdown (a +:+ "**" +:+ b +:+ "**" +:+ c) =
  a +:+ "<b>" +:+ b +:+ "</b>" +:+ c.
Proof.
  intros Ha Hb Hline Hc. unfold formatMarkdown.
  assert (Hbold :
    replace_all_spans "**" "<b>" "</b>" (a +:+ "**" +:+ b +:+ "**" +:+ c) =
    a +:+ "<b>" +:+ b +:+ "</b>" +:+ c).
  { rewrite (replace_all_spans_fuel _ _ _ _
               (String.length a
                + S (String.length ("**" +:+ b +:+ "**" +:+ c))));
      [|done|rewrite length_append_string; lia].
    rewrite (replace_spans_copy "*" _ _ a); [|done].
    cbn [replace_spans]. rewrite match_here_at_delimiter.
    rewrite (lazy_until_closing "*" b c Hb Hline).
    by rewrite (replace_spans_absent "*"). }
  rewrite Hbold. unfold replace_all_spans.
  rewrite (replace_spans_absent ""); [done|].
  by apply no_asterisk_in_tagged.
Qed.

(** X3: an italic span.  In a text whose only asterisks are one pair of
    single asterisks around a group without line break (the group may be
    empty), the pair becomes the italic tag around exactly that group. *)
Theorem formatMarkdown_italic_span a b c :
  includes "*" a = false → includes "*" b = false →
  no_line_terminator b = true → includes "*" c = false →
  formatMarkdown (a +:+ "*" +:+ b +:+ "*" +:+ c) =
  a +:+ "<i>" +:+ b +:+ "</i>" +:+ c.
Proof.
  intros Ha Hb Hline Hc. unfold formatMarkdown.
  assert (Hbold :
    replace_all_spans "**" "<b>" "</b>" (a +:+ "*" +:+ b +:+ "*" +:+ c) =
    a +:+ "*" +:+ b +:+ "*" +:+ c).
  { rewrite (replace_all_spans_fuel _ _ _ _
               (String.length a
                + S (String.length b
                     + S (String.length (a +:+ "*" +:+ b +:+ "*" +:+ c)))));
      [|done|lia].
    by apply bold_pass_keeps_single_asterisks. }
  rewrite Hbold.
  rewrite (replace_all_spans_fuel _ _ _ _
             (String.length a
              + S (String.length ("*" +:+ b +:+ "*" +:+ c))));
    [|done|rewrite length_append_string; lia].
  rewrite (replace_spans_copy "" _ _ a); [|done].
  cbn [replace_spans]. rewrite match_here_at_delimiter.
  rewrite (lazy_until_closing "" b c Hb Hline).
  by rewrite (replace_spans_absent "").
Qed.

(** X4: a pair of asterisks with a line break between them is no span: the
    text is sent as it is. *)
Theorem formatMarkdown_no_span_across_lines a m c :
  includes "*" a = false → includes "*" m = false →
  no_line_terminator m = false → includes "*" c = false →
  formatMarkdown (a +:+ "*" +:+ m +:+ "*" +:+ c) =
  a +:+ "*" +:+ m +:+ "*" +:+ c.
Proof.
  intros Ha Hm Hline Hc. unfold formatMarkdown.
  assert (Hbold :
    replace_all_spans "**" "<b>" "</b>" (a +:+ "*" +:+ m +:+ "*" +:+ c) =
    a +:+ "*" +:+ m +:+ "*" +:+ c).
  { rewrite (replace_all_spans_fuel _ _ _ _
               (String.length a
                + S (String.length m
                     + S (String.length (a +:+ "*" +:+ m +:+ "*" +:+ c)))));
      [|done|lia].
    by apply bold_pass_keeps_single_asterisks. }
  rewrite Hbold.
  rewrite (replace_all_spans_fuel _ _ _ _
             (String.length a
              + S (String.length m
                   + S (String.length (a +:+ "*" +:+ m +:+ "*" +:+ c)))));
    [|done|lia].
  rewrite (replace_spans_copy "" _ _ a); [|done].
  cbn [replace_spans]. rewrite match_here_at_delimiter.
  rewrite (lazy_until_line_break "" c m Hm Hline).
  rewrite (append_cons "*" "" (m +:+ "*" +:+ c)), append_empty.
  rewrite (replace_spans_copy "" _ _ m); [|done].
  cbn [replace_spans].
  rewrite (append_cons "*" "" c), append_empty.
  change (String "*" c) with ("*" +:+ c) at 1.
  rewrite match_here_at_delimiter, (lazy_until_absent "" c Hc).
  by rewrite (replace_spans_absent "").
Qed.
End Markup.

Lemma formatMarkdown_without_asterisk_witness :
  includes "*" "Only text messages are supported." = false
  ∧ formatMarkdown "Only text messages are supported." =
    "Only text messages are supported.".
Proof.
  split; [reflexivity|].
  by apply (formatMarkdown_without_asterisk "Only text messages are supported.").
Defined.

Lemma formatMarkdown_bold_span_witness :
  formatMarkdown ("Total: " +:+ "**" +:+ "42 h" +:+ "**" +:+ " this week") =
  "Total: " +:+ "<b>" +:+ "42 h" +:+ "</b>" +:+ " this week".
Proof.
  by apply (formatMarkdown_bold_span "Total: " "42 h" " this week").
Defined.

Lemma formatMarkdown_italic_span_witness :
  formatMarkdown ("see " +:+ "*" +:+ "note" +:+ "*" +:+ ".") =
  "see " +:+ "<i>" +:+ "note" +:+ "</i>" +:+ ".".
Proof.
  by apply (formatMarkdown_italic_span "see " "note" ".").
Defined.

Lemma formatMarkdown_no_span_across_lines_witness :
  formatMarkdown ("" +:+ "*" +:+ " first
" +:+ "*" +:+ " second") =
  "" +:+ "*" +:+ " first
" +:+ "*" +:+ " second".
Proof.
  by apply (formatMarkdown_no_span_across_lines "" " first
" " second").
Defined.

Section ReplyContained.
Context (E : Env).

Lemma send_until_failure_replies msgs : ∀ tr,
  forallb is_lark_reply (send_until_failure E tr msgs) = true.
Proof.
  induction msgs as [|m rest IH]; intros tr; [done|]. simpl.
  destruct (im_message_reply E tr m); [apply IH|done].
Qed.

Lemma image_messages_without_png mid items :
  forallb (fun artifact => negb (is_png artifact)) items = true →
  image_messages mid items = [].
Proof.
  induction items as [|artifact rest IH]; [done|]. simpl. unfold is_png at 1.
  destruct (get artifact "type") as [type|] eqn:Htype; [|done].
  destruct (get_data_of_type _ _ Htype) as [data ->].
  destruct (is_str type "png"); [done|]. exact IH.
Qed.

(** X5: whatever it is given, [reply] of index.js throws nothing, returns
    nothing, leaves the session store and the processed set alone, and its
    only effects are calls of the Lark reply API; with a content that is not
    a string it does not even call Lark. *)
Theorem reply_is_contained mid c a t st :
  (Index.reply E mid c a t st).1 = Ok JUndef
  ∧ conversationHistories (Index.reply E mid c a t st).2 =
    conversationHistories st
  ∧ processedEvents (Index.reply E mid c a t st).2 = processedEvents st
  ∧ forallb is_lark_reply (effects_since st (Index.reply E mid c a t st).2)
    = true
  ∧ match c with
    | JStr _ => True
    | _ => (Index.reply E mid c a t st).2 = st
    end.
Proof.
  rewrite index_reply_spec. cbn [fst snd].
  rewrite effects_since_add_trace.
  split_and!; try done.
  - apply send_until_failure_replies.
  - destruct c; try done; unfold reply_messages; simpl;
      by rewrite add_trace_nil.
Qed.

(** X6: when [artifacts] is not iterable or holds no "png" artifact, the one
    text message is all that [reply] attempts. *)
Theorem reply_without_png_sends_text_only mid text a st :
  no_png_artifact a = true →
  effects_since st (Index.reply E mid (JStr text) a JUndef st).2 =
  [LarkReply (text_message mid (formatMarkdown text))
     (im_message_reply E (trace st) (text_message mid (formatMarkdown text)))].
Proof.
  unfold no_png_artifact. intros Hnone.
  rewrite index_reply_spec. cbn [snd]. rewrite effects_since_add_trace.
  unfold reply_messages. cbn [formatMarkdown_of default_param].
  fold (text_message mid (formatMarkdown text)).
  destruct (iterate (default_param a (JArr []))) as [items|e].
  - rewrite (image_messages_without_png mid items Hnone). simpl.
    by destruct (im_message_reply E _ _).
  - simpl. by destruct (im_message_reply E _ _).
Qed.
End ReplyContained.

Lemma reply_without_png_sends_text_only_witness :
  no_png_artifact (JArr [JObj [("type", JStr "csv"); ("data", JStr "k3")]; JNull])
  = true
  ∧ effects_since fresh
      (Index.reply calm (JStr "om_7") (JStr "pong")
         (JArr [JObj [("type", JStr "csv"); ("data", JStr "k3")]; JNull])
         JUndef fresh).2 =
    [LarkReply (text_message (JStr "om_7") "pong") (Some lark_ok)].
Proof.
  split; [reflexivity|].
  exact (reply_without_png_sends_text_only calm (JStr "om_7") "pong"
           (JArr [JObj [("type", JStr "csv"); ("data", JStr "k3")]; JNull])
           fresh eq_refl).
Defined.

Section Router.
Context (E : Env).

Lemma reply_fixed_text mid text a st :
  no_png_artifact a = true → formatMarkdown text = text →
  Index.reply E mid (JStr text) a JUndef st =
  (Ok JUndef,
   add_trace st
     [LarkReply (text_message mid text)
        (im_message_reply E (trace st) (text_message mid text))]).
Proof.
  unfold no_png_artifact. intros Hnone Hplain.
  rewrite index_reply_spec. unfold reply_messages.
  cbn [formatMarkdown_of default_param]. rewrite Hplain.
  fold (text_message mid text).
  destruct (iterate (default_param a (JArr []))) as [items|e].
  - rewrite (image_messages_without_png mid items Hnone). simpl.
    by destruct (im_message_reply E _ _).
  - simpl. by destruct (im_message_reply E _ _).
Qed.

(** X7: every command but "/clear" (so "/help" and every unknown command)
    sends the usage text once, as a text message, and changes neither the
    session store nor the processed set. *)
Theorem unknown_command_sends_help action sid mid st :
  action ≠ "/clear" →
  Index.cmdProcess E action sid mid st =
  (Ok JUndef,
   add_trace st
     [LarkReply (text_message mid Index.helpText)
        (im_message_reply E (trace st) (text_message mid Index.helpText))]).
Proof.
  intros Hne. unfold Index.cmdProcess.
  apply String.eqb_neq in Hne. rewrite Hne.
  assert (Hhelp : Index.cmdHelp E mid st =
    (Ok JUndef,
     add_trace st
       [LarkReply (text_message mid Index.helpText)
          (im_message_reply E (trace st) (text_message mid Index.helpText))])).
  { unfold Index.cmdHelp. unfold_monad.
    by rewrite (reply_fixed_text mid Index.helpText (JStr "Help") st). }
  by destruct (String.eqb action "/help").
Qed.

(** X8: "/clear" for a session that has no history changes no history and
    still confirms with one text message. *)
Theorem clear_of_absent_session sid mid st :
  conversationHistories st !! sid = None →
  (Index.cmdClear E sid mid st).1 = Ok JUndef
  ∧ conversationHistories (Index.cmdClear E sid mid st).2 =
    conversationHistories st
  ∧ text_replies (effects_since st (Index.cmdClear E sid mid st).2) = 1.
Proof.
  intros Hnone. rewrite index_cmdClear_spec. cbn [fst snd].
  split; [done|]. split.
  - simpl. by apply delete_id.
  - rewrite (effects_since_app st _
               ([HistoryDelete sid] ++
                send_until_failure E (trace st ++ [HistoryDelete sid])
                  (reply_messages mid (JStr "✅ Conversation history cleared.")
                     JUndef JUndef))).
    + by rewrite text_replies_app, text_replies_reply.
    + simpl. by rewrite <- app_assoc.
Qed.

(** X9: an input without usable text (the text is absent, falsy, or only
    white space and the mention) gets the invalid-input notice and nothing
    else: no Flowise call, no change of a store. *)
Theorem invalid_input_gets_notice u t sid mid st :
  get u "text" = Ok t →
  truthy t = false ∨ (∃ s, t = JStr s ∧ question_of s = "") →
  Index.handleReply E u sid mid st =
  (Ok JUndef,
   add_trace st
     [LarkReply (text_message mid invalid_input_notice)
        (im_message_reply E (trace st)
           (text_message mid invalid_input_notice))]).
Proof.
  intros Htext Hcases.
  assert (Hnotice :
    Index.reply E mid (JStr invalid_input_notice) JUndef JUndef st =
    (Ok JUndef,
     add_trace st
       [LarkReply (text_message mid invalid_input_notice)
          (im_message_reply E (trace st)
             (text_message mid invalid_input_notice))])).
  { by apply reply_fixed_text. }
  unfold Index.handleReply. unfold_monad. rewrite Htext.
  destruct Hcases as [Hfalsy | (s & -> & Hq)].
  - rewrite Hfalsy. exact Hnotice.
  - destruct (truthy (JStr s)); [|exact Hnotice].
    change (trim (replace_first "@_user_1" "" s)) with (question_of s).
    rewrite Hq. exact Hnotice.
Qed.

(** X10: when Flowise fails on a question, [handleReply] throws nothing and
    sends the apology, after the effects of the failed query. *)
Theorem flowise_failure_gets_apology u s sid mid st e :
  get u "text" = Ok (JStr s) →
  question_of s ≠ "" →
  startsWith "/" (question_of s) = false →
  (Index.queryFlowise E (question_of s) sid st).1 = Throw e →
  Index.handleReply E u sid mid st =
  (Ok JUndef,
   add_trace (Index.queryFlowise E (question_of s) sid st).2
     [LarkReply (text_message mid apology)
        (im_message_reply E
           (trace (Index.queryFlowise E (question_of s) sid st).2)
           (text_message mid apology))]).
Proof.
  intros Htext Hne Hslash Hfail.
  assert (Htruthy : truthy (JStr s) = true).
  { destruct s; [by exfalso; apply Hne|done]. }
  unfold Index.handleReply. unfold_monad.
  rewrite Htext. cbn [lift]. rewrite Htruthy.
  change (trim (replace_first "@_user_1" "" s)) with (question_of s).
  destruct (question_of s) as [|c q] eqn:Hq; [done|].
  rewrite Hslash.
  destruct (Index.queryFlowise E (String c q) sid st) as [[r|e'] st1];
    [discriminate|].
  cbn [fst snd]. by apply reply_fixed_text.
Qed.
End Router.

Lemma unknown_command_sends_help_witness :
  "/histroy" ≠ "/clear"
  ∧ Index.cmdProcess calm "/histroy" "oc_1ou_1" (JStr "om_8") fresh =
    (Ok JUndef,
     add_trace fresh
       [LarkReply (text_message (JStr "om_8") Index.helpText) (Some lark_ok)]).
Proof.
  split; [discriminate|].
  exact (unknown_command_sends_help calm "/histroy" "oc_1ou_1" (JStr "om_8")
           fresh ltac:(discriminate)).
Defined.

Lemma clear_of_absent_session_witness :
  conversationHistories fresh !! "oc_1ou_1" = None
  ∧ conversationHistories
      (Index.cmdClear calm "oc_1ou_1" (JStr "om_9") fresh).2 =
    conversationHistories fresh.
Proof.
  split; [reflexivity|].
  exact (proj1 (proj2 (clear_of_absent_session calm "oc_1ou_1" (JStr "om_9")
                         fresh eq_refl))).
Defined.

Lemma invalid_input_gets_notice_witness :
  question_of "  @_user_1  " = ""
  ∧ Index.handleReply calm (JObj [("text", JStr "  @_user_1  ")]) "oc_1ou_1"
      (JStr "om_10") fresh =
    (Ok JUndef,
     add_trace fresh
       [LarkReply (text_message (JStr "om_10") invalid_input_notice)
          (Some lark_ok)]).
Proof.
  split; [reflexivity|].
  apply (invalid_input_gets_notice calm
           (JObj [("text", JStr "  @_user_1  ")]) (JStr "  @_user_1  ")
           "oc_1ou_1" (JStr "om_10") fresh eq_refl).
  right. by exists "  @_user_1  ".
Defined.

Lemma flowise_failure_gets_apology_witness :
  (Index.queryFlowise offline (question_of "@_user_1 hello") "oc_1ou_1"
     fresh).1 = Throw FetchError
  ∧ text_replies
      (trace (Index.handleReply offline
                (JObj [("text", JStr "@_user_1 hello")]) "oc_1ou_1"
                (JStr "om_11") fresh).2) = 1.
Proof.
  split; [reflexivity|].
  rewrite (flowise_failure_gets_apology offline
             (JObj [("text", JStr "@_user_1 hello")]) "@_user_1 hello"
             "oc_1ou_1" (JStr "om_11") fresh FetchError eq_refl
             ltac:(discriminate) eq_refl eq_refl).
  reflexivity.
Defined.

Section Frames.
Context (E : Env).

Lemma index_cmdProcess_frame action sid mid st sid' :
  sid' ≠ sid →
  conversationHistories (Index.cmdProcess E action sid mid st).2 !! sid' =
  conversationHistories st !! sid'.
Proof.
  intros Hne. unfold Index.cmdProcess.
  destruct (String.eqb action "/help");
    [|destruct (String.eqb action "/clear")];
    rewrite ?index_cmdHelp_spec, ?index_cmdClear_spec; simpl; try done.
  by apply lookup_delete_ne.
Qed.

(** X11: handling a message of one session never changes the history of
    another session, and never changes the processed set. *)
Theorem handleReply_session_frame u sid mid st sid' :
  sid' ≠ sid →
  conversationHistories (Index.handleReply E u sid mid st).2 !! sid' =
  conversationHistories st !! sid'
  ∧ processedEvents (Index.handleReply E u sid mid st).2 = processedEvents st.
Proof.
  intros Hne. split.
  2: { destruct (Index.handleReply E u sid mid st) as [r st'] eqn:Hrun.
       apply index_handleReply_spec in Hrun. simpl.
       destruct r as [v|e].
       - by destruct Hrun as (_ & _ & Hp & _).
       - by destruct Hrun as (_ & ->). }
  unfold Index.handleReply. unfold_monad.
  destruct (get u "text") as [text|e]; [|done]. cbn [lift].
  assert (Hnotice : ∀ c,
    conversationHistories (Index.reply E mid c JUndef JUndef st).2 !! sid' =
    conversationHistories st !! sid').
  { intros c. by rewrite index_reply_spec. }
  destruct (truthy text); [|apply Hnotice].
  destruct text as [| | | |s| |]; try done.
  destruct (trim (replace_first "@_user_1" "" s)) as [|c question];
    [apply Hnotice|].
  destruct (startsWith "/" (String c question));
    [by apply index_cmdProcess_frame|].
  destruct (index_queryFlowise_appends E (String c question) sid st)
    as [ext Hext].
  destruct (Index.queryFlowise E (String c question) sid st) as [[r|e] st1];
    cbn [snd] in Hext.
  - destruct (get r "text") as [answer|e]; cbn [fst snd].
    + destruct (get r "artifacts") as [artifacts|e]; cbn [fst snd];
        rewrite index_reply_spec; cbn [fst snd add_trace conversationHistories];
        rewrite Hext; by apply lookup_insert_ne.
    + rewrite index_reply_spec. cbn [fst snd add_trace conversationHistories].
      rewrite Hext. by apply lookup_insert_ne.
  - cbn [fst snd]. rewrite index_reply_spec.
    cbn [fst snd add_trace conversationHistories].
    rewrite Hext. by apply lookup_insert_ne.
Qed.
End Frames.

Lemma handleReply_session_frame_witness :
  "oc_2ou_2" ≠ "oc_1ou_1"
  ∧ conversationHistories
      (Index.handleReply calm (JObj [("text", JStr "/clear")]) "oc_1ou_1"
         (JStr "om_12")
         (mkState {["oc_2ou_2" := [JStr "hi"; JStr "pong"]]} [] [])).2
    !! "oc_2ou_2" = Some [JStr "hi"; JStr "pong"].
Proof.
  split; [discriminate|].
  exact (proj1 (handleReply_session_frame calm
                  (JObj [("text", JStr "/clear")]) "oc_1ou_1" (JStr "om_12")
                  (mkState {["oc_2ou_2" := [JStr "hi"; JStr "pong"]]} [] [])
                  "oc_2ou_2" ltac:(discriminate))).
Defined.

Section Intake.
Context (E : Env).

Lemma get_total v k : nullish v = false → ∃ w, get v k = Ok w.
Proof. destruct v; simpl; try discriminate; eauto. Qed.

Lemma truthy_not_nullish v : truthy v = true → nullish v = false.
Proof. by destruct v. Qed.

Lemma validateAppConfig_verdict st :
  validateAppConfig E st =
  (Ok (JObj [("code", JNum (if config_valid E then 0 else 1));
             ("message",
              JStr (if String.eqb (LARK_APP_ID E) ""
                       || String.eqb (LARK_APP_SECRET E) ""
                    then "Missing Lark App ID or Secret"
                    else if startsWith "cli_" (LARK_APP_ID E)
                    then "✅ Lark App configuration is valid."
                    else "Lark App ID must start with 'cli_'"))]),
   st).
Proof.
  unfold validateAppConfig, config_valid.
  destruct (String.eqb (LARK_APP_ID E) ""); simpl; [done|].
  destruct (String.eqb (LARK_APP_SECRET E) ""); simpl; [done|].
  by destruct (startsWith "cli_" (LARK_APP_ID E)).
Qed.

(** X12: a handshake, an encrypted payload and every body that is not a
    message-received event are answered without any effect: no reply, no
    history change, and the event id is not recorded; unless the body is
    [null] the handler does not throw on them. *)
Theorem webhook_without_effect params st :
  is_handshake params || is_encrypted params || negb (is_message_event params)
  = true →
  (Index.webhook E params st).2 = st
  ∧ (nullish params = false →
     completes (Index.webhook E params st).1 = true).
Proof.
  unfold is_handshake, is_encrypted, is_message_event, Index.webhook.
  unfold_monad. intros Hpath.
  destruct (nullish params) eqn:Hnull.
  { split; [|done]. by destruct params. }
  destruct (get_total params "type" Hnull) as [type Htype].
  destruct (get_total params "challenge" Hnull) as [challenge Hchallenge].
  destruct (get_total params "encrypt" Hnull) as [encrypt Hencrypt].
  destruct (get_total params "header" Hnull) as [header Hheader].
  rewrite Htype, Hencrypt, Hheader in Hpath. rewrite Htype. cbn [lift].
  destruct (is_str type "url_verification").
  { by rewrite Hchallenge. }
  rewrite Hencrypt. cbn [lift].
  destruct (truthy encrypt); [done|].
  rewrite Hheader. cbn [lift].
  destruct (truthy header) eqn:Htruthy; cbn [negb].
  2: { by rewrite validateAppConfig_verdict. }
  destruct (get_total header "event_type" (truthy_not_nullish _ Htruthy))
    as [eventType HeventType].
  destruct (get_total header "event_id" (truthy_not_nullish _ Htruthy))
    as [eventId HeventId].
  rewrite HeventType in Hpath. rewrite HeventType, HeventId. cbn [lift].
  simpl in Hpath.
  destruct (is_str eventType "im.message.receive_v1"); [discriminate|done].
Qed.

(** X13: an event of another type is answered {code: 2}, whatever else the
    body carries. *)
Theorem other_event_types_get_code_2 params header st :
  is_handshake params = false → is_encrypted params = false →
  get params "header" = Ok header → truthy header = true →
  is_message_event params = false →
  Index.webhook E params st = (Ok (JObj [("code", JNum 2)]), st).
Proof.
  unfold is_handshake, is_encrypted, is_message_event, Index.webhook.
  unfold_monad. intros Hshake Hencrypted Hheader Htruthy Hother.
  assert (Hnull : nullish params = false) by by destruct params.
  destruct (get_total params "type" Hnull) as [type Htype].
  destruct (get_total params "encrypt" Hnull) as [encrypt Hencrypt].
  rewrite Htype in Hshake. rewrite Hencrypt in Hencrypted.
  rewrite Hheader in Hother.
  rewrite Htype. cbn [lift]. rewrite Hshake, Hencrypt. cbn [lift].
  rewrite Hencrypted, Hheader. cbn [lift]. rewrite Htruthy. cbn [negb].
  destruct (get_total header "event_type" (truthy_not_nullish _ Htruthy))
    as [eventType HeventType].
  destruct (get_total header "event_id" (truthy_not_nullish _ Htruthy))
    as [eventId HeventId].
  rewrite HeventType in Hother. rewrite HeventType, HeventId. cbn [lift].
  by rewrite Hother.
Qed.

(** X14: a body without header (an object without the key, but also an
    array or a plain value) is the credential self-check: the answer has
    code 0 exactly when the application id and the secret are not empty and
    the id starts with "cli_", code 1 otherwise, and nothing else happens. *)
Theorem self_check_verdict params header st :
  nullish params = false →
  is_handshake params = false → is_encrypted params = false →
  get params "header" = Ok header → truthy header = false →
  ∃ message,
    Index.webhook E params st =
    (Ok (JObj [("code", JNum (if config_valid E then 0 else 1));
               ("message", JStr message)]), st).
Proof.
  unfold is_handshake, is_encrypted, Index.webhook.
  unfold_monad. intros Hnull Hshake Hencrypted Hheader Hfalsy.
  destruct (get_total params "type" Hnull) as [type Htype].
  destruct (get_total params "encrypt" Hnull) as [encrypt Hencrypt].
  rewrite Htype in Hshake. rewrite Hencrypt in Hencrypted.
  rewrite Htype. cbn [lift]. rewrite Hshake, Hencrypt. cbn [lift].
  rewrite Hencrypted, Hheader. cbn [lift]. rewrite Hfalsy. cbn [negb].
  rewrite validateAppConfig_verdict. eauto.
Qed.
End Intake.

Lemma webhook_without_effect_witness :
  (Index.webhook calm
     (JObj [("encrypt", JStr "AAAA");
            ("header",
             JObj [("event_id", JStr "ev_9");
                   ("event_type", JStr "im.message.receive_v1")])])
     fresh).2 = fresh.
Proof.
  exact (proj1 (webhook_without_effect calm
                  (JObj [("encrypt", JStr "AAAA");
                         ("header",
                          JObj [("event_id", JStr "ev_9");
                                ("event_type", JStr "im.message.receive_v1")])])
                  fresh eq_refl)).
Defined.

Lemma other_event_types_get_code_2_witness :
  Index.webhook calm
    (JObj [("header",
            JObj [("event_id", JStr "ev_10");
                  ("event_type", JStr "im.chat.member.bot.added_v1")])])
    fresh =
  (Ok (JObj [("code", JNum 2)]), fresh).
Proof.
  exact (other_event_types_get_code_2 calm
           (JObj [("header",
                   JObj [("event_id", JStr "ev_10");
                         ("event_type", JStr "im.chat.member.bot.added_v1")])])
           (JObj [("event_id", JStr "ev_10");
                  ("event_type", JStr "im.chat.member.bot.added_v1")])
           fresh eq_refl eq_refl eq_refl eq_refl eq_refl).
Defined.

Lemma self_check_verdict_witness :
  config_valid calm = true
  ∧ ∃ message,
      Index.webhook calm (JArr []) fresh =
      (Ok (JObj [("code", JNum 0); ("message", JStr message)]), fresh).
Proof.
  split; [reflexivity|].
  exact (self_check_verdict calm (JArr []) JUndef fresh eq_refl eq_refl
           eq_refl eq_refl eq_refl).
Defined.

Section Dedup.
Context (E : Env).

(** Where a run of [webhook] can end: in the state it started from, or, once
    the event id is recorded, after one [reply], after [handleReply], or right
    there when the content cannot be parsed. *)
Lemma index_webhook_cases params st :
  (Index.webhook E params st).2 = st
  ∨ ∃ eventId,
      (Index.webhook E params st).2 = (processed_add eventId st).2
      ∨ (∃ mid c,
           (Index.webhook E params st).2 =
           (Index.reply E mid c JUndef JUndef (processed_add eventId st).2).2)
      ∨ (∃ u sid mid,
           (Index.webhook E params st).2 =
           (Index.handleReply E u sid mid (processed_add eventId st).2).2).
Proof.
  unfold Index.webhook, processed_has, parse. unfold_monad.
  destruct (get params "type") as [type|]; [|by left]. cbn [lift].
  destruct (is_str type "url_verification").
  { destruct (get params "challenge"); by left. }
  destruct (get params "encrypt") as [encrypt|]; [|by left]. cbn [lift].
  destruct (truthy encrypt); [by left|].
  destruct (get params "header") as [header|]; [|by left]. cbn [lift].
  destruct (truthy header); cbn [negb].
  2: { rewrite validateAppConfig_verdict. by left. }
  destruct (get header "event_type") as [eventType|]; [|by left].
  destruct (get header "event_id") as [eventId|]; [|by left]. cbn [lift].
  destruct (is_str eventType "im.message.receive_v1"); [|by left].
  destruct (get params "event") as [event|]; [|by left]. cbn [lift].
  destruct (get event "message") as [message|]; [|by left]. cbn [lift].
  destruct (get message "message_id") as [messageId|]; [|by left].
  destruct (get message "chat_id") as [chatId|]; [|by left].
  destruct (get message "message_type") as [messageType|]; [|by left].
  cbn [lift].
  destruct (get event "sender") as [sender|]; [|by left]. cbn [lift].
  destruct (get sender "sender_id") as [sender_id|]; [|by left]. cbn [lift].
  destruct (get sender_id "user_id") as [senderId|]; [|by left]. cbn [lift].
  destruct (sessionId_of chatId senderId) as [sessionId|]; [|by left].
  destruct (existsb (same_value_zero eventId) (processedEvents st));
    [by left|].
  right. exists eventId.
  destruct (processed_add eventId st) as [[[]|e] st1] eqn:Hadd;
    [|discriminate Hadd].
  cbn [snd].
  destruct (negb (is_str messageType "text")).
  { right. left. exists messageId, (JStr "Only text messages are supported.").
    by destruct (Index.reply E messageId _ JUndef JUndef st1) as [[v|e] st2]. }
  destruct (get message "content") as [content|]; [|by left]. cbn [lift].
  destruct (ToString content) as [raw|]; [|by left].
  destruct (JSON_parse E raw) as [userInput|]; [|by left].
  right. right. exists userInput, sessionId, messageId.
  by destruct (Index.handleReply E userInput sessionId messageId st1)
    as [[v|e] st2].
Qed.

Lemma index_handleReply_grows u sid mid st :
  processedEvents (Index.handleReply E u sid mid st).2 = processedEvents st
  ∧ trace st `prefix_of` trace (Index.handleReply E u sid mid st).2.
Proof.
  destruct (Index.handleReply E u sid mid st) as [r st'] eqn:Hrun.
  apply index_handleReply_spec in Hrun. cbn [snd].
  destruct r as [v|e].
  - destruct Hrun as (_ & _ & Hp & sent & -> & _). split; [done|].
    by apply prefix_app_r.
  - by destruct Hrun as (_ & ->).
Qed.

Lemma index_webhook_grows params st :
  processedEvents st `prefix_of` processedEvents (Index.webhook E params st).2
  ∧ trace st `prefix_of` trace (Index.webhook E params st).2.
Proof.
  assert (Hadd : ∀ eventId,
    processedEvents st `prefix_of` processedEvents (processed_add eventId st).2
    ∧ trace st `prefix_of` trace (processed_add eventId st).2).
  { intros eventId. unfold processed_add. cbn [snd processedEvents trace].
    split; [|by apply prefix_app_r].
    destruct (existsb _ _); [done|by apply prefix_app_r]. }
  destruct (index_webhook_cases params st)
    as [-> | (eventId & [-> | [(mid & c & ->) | (u & sid & mid & ->)]])].
  - done.
  - apply Hadd.
  - rewrite index_reply_spec. cbn [snd add_trace processedEvents trace].
    destruct (Hadd eventId) as [Hp Ht]. split; [done|].
    etrans; [exact Ht|]. by apply prefix_app_r.
  - destruct (index_handleReply_grows u sid mid (processed_add eventId st).2)
      as [-> Ht'].
    destruct (Hadd eventId) as [Hp Ht]. split; [done|]. by etrans.
Qed.

(** X15: the processed set never forgets: whatever the body and whatever
    Lark and Flowise do, an id that is in the set before a call of the
    webhook is in the set after it, and the trace is only extended. *)
Theorem processed_set_never_forgets params v st :
  existsb (same_value_zero v) (processedEvents st) = true →
  existsb (same_value_zero v) (processedEvents (Index.webhook E params st).2)
  = true
  ∧ trace st `prefix_of` trace (Index.webhook E params st).2.
Proof.
  intros Hin. destruct (index_webhook_grows params st) as [[more ->] Ht].
  split; [|done]. rewrite existsb_app. by rewrite Hin.
Qed.

Lemma index_webhook_without_event_id ev st :
  Index.webhook E (message_without_event_id ev) st =
  if existsb (same_value_zero JUndef) (processedEvents st)
  then (Ok duplicate_event, st)
  else if negb (String.eqb (messageType ev) "text") then
    (Ok (JObj [("code", JNum 0)]),
     (Index.reply E (JStr (messageId ev))
        (JStr "Only text messages are supported.") JUndef JUndef
        (processed_add JUndef st).2).2)
  else
    match JSON_parse E (rawContent ev) with
    | None => (Throw SyntaxError, (processed_add JUndef st).2)
    | Some userInput =>
        Index.handleReply E userInput (chatId ev +:+ senderId ev)
          (JStr (messageId ev)) (processed_add JUndef st).2
    end.
Proof.
  unfold Index.webhook, message_without_event_id, processed_has, processed_add,
    parse.
  unfold_monad. simpl.
  destruct (existsb _ (processedEvents st)) eqn:Hseen; [reflexivity|].
  destruct (String.eqb (messageType ev) "text"); simpl; rewrite ?Hseen.
  - destruct (JSON_parse E (rawContent ev)) as [userInput|]; [|reflexivity].
    by destruct (Index.handleReply E userInput _ _ _) as [[v|e] st'].
  - by rewrite index_reply_spec.
Qed.

(** X16: events without [event_id] share one key.  Once a message-received
    event whose header has no [event_id] has been handled, every later one,
    whatever its chat, sender and content, is answered "Duplicate event" and
    has no effect. *)
Theorem events_without_id_collide ev1 ev2 st :
  Index.webhook E (message_without_event_id ev2)
    (Index.webhook E (message_without_event_id ev1) st).2 =
  (Ok duplicate_event, (Index.webhook E (message_without_event_id ev1) st).2).
Proof.
  assert (Hmarked :
    existsb (same_value_zero JUndef)
      (processedEvents (Index.webhook E (message_without_event_id ev1) st).2)
    = true).
  { rewrite index_webhook_without_event_id.
    destruct (existsb (same_value_zero JUndef) (processedEvents st)) eqn:Hseen;
      [done|].
    assert (Hadd :
      existsb (same_value_zero JUndef)
        (processedEvents (processed_add JUndef st).2) = true).
    { unfold processed_add. cbn [snd processedEvents]. rewrite Hseen.
      rewrite existsb_app. simpl. by rewrite orb_true_r. }
    destruct (negb (String.eqb (messageType ev1) "text")).
    - by rewrite index_reply_spec.
    - destruct (JSON_parse E (rawContent ev1)) as [userInput|]; [|done].
      by destruct (index_handleReply_grows userInput
                     (chatId ev1 +:+ senderId ev1) (JStr (messageId ev1))
                     (processed_add JUndef st).2) as [-> _]. }
  rewrite (index_webhook_without_event_id ev2). by rewrite Hmarked.
Qed.

(** X17: an event whose sender has no [user_id] is handled exactly as if the
    sender were the user "undefined": all such senders of one chat share one
    session, and one history. *)
Theorem missing_user_id_shares_session ev st :
  Index.webhook E (message_without_user_id ev) st =
  Index.webhook E (message_received (with_sender "undefined" ev)) st.
Proof. reflexivity. Qed.
End Dedup.

Lemma processed_set_never_forgets_witness :
  existsb (same_value_zero (JStr "ev_1")) (processedEvents (marked "ev_1" fresh))
  = true
  ∧ existsb (same_value_zero (JStr "ev_1"))
      (processedEvents
         (Index.webhook calm (message_received greeting) (marked "ev_1" fresh)).2)
    = true.
Proof.
  split; [reflexivity|].
  exact (proj1 (processed_set_never_forgets calm (message_received greeting)
                  (JStr "ev_1") (marked "ev_1" fresh) eq_refl)).
Defined.

Section Context_.
Context (E : Env).

(** A history of strings joins without failure into the strings separated
    by single spaces. *)
Lemma join_strings l : join " " (map JStr l) = Ok (String.concat " " l).
Proof.
  unfold join. induction l as [|x l IH]; [done|].
  cbn [map array_join join_elem ToString]. unfold_monad.
  destruct l as [|y l]; [done|].
  cbn [map] in *. rewrite IH. reflexivity.
Qed.

Lemma index_queryFlowise_context l q sid st :
  default [] (conversationHistories st !! sid) = map JStr l →
  ∃ rest,
    effects_since st (Index.queryFlowise E q sid st).2 =
    HistorySet sid (map JStr (l ++ [q]))
    :: FlowiseFetch (String.concat " " (l ++ [q]))
         (flowise E (trace st ++ [HistorySet sid (map JStr (l ++ [q]))])
            (String.concat " " (l ++ [q])))
    :: rest.
Proof.
  intros Hstored. rewrite index_queryFlowise_spec. unfold asked.
  rewrite Hstored.
  change [JStr q] with (map JStr [q]).
  rewrite <- (map_app JStr l [q]), join_strings.
  cbv zeta. cbn [trace].
  destruct (flowise E _ _) as [| |r] eqn:Hout.
  1, 2: exists []; apply effects_since_app; simpl; by rewrite <- app_assoc.
  destruct (get r "text") as [text|e].
  2: { exists []. apply effects_since_app. simpl. by rewrite <- app_assoc. }
  destruct (truthy text).
  - eexists [_]. apply effects_since_app. simpl. by rewrite <- !app_assoc.
  - exists []. apply effects_since_app. simpl. by rewrite <- app_assoc.
Qed.

(** X18: when the history of the session (empty when the session is
    unknown) consists of strings, the request to Flowise carries the whole
    history followed by the new question, separated by single spaces, and
    it is sent right after the question is stored. *)
Theorem context_is_the_joined_history l q sid st :
  default [] (conversationHistories st !! sid) = map JStr l →
  ∃ rest,
    effects_since st (Index.queryFlowise E q sid st).2 =
    HistorySet sid (map JStr (l ++ [q]))
    :: FlowiseFetch (String.concat " " (l ++ [q]))
         (flowise E (trace st ++ [HistorySet sid (map JStr (l ++ [q]))])
            (String.concat " " (l ++ [q])))
    :: rest.
Proof. apply index_queryFlowise_context. Qed.

(** X19: a question whose query failed stays in the context: the next
    question of the session is sent to Flowise together with it. *)
Theorem failed_question_stays_in_context l q q' sid st e :
  default [] (conversationHistories st !! sid) = map JStr l →
  (Index.queryFlowise E q sid st).1 = Throw e →
  ∃ out rest,
    effects_since (Index.queryFlowise E q sid st).2
      (Index.queryFlowise E q' sid (Index.queryFlowise E q sid st).2).2 =
    HistorySet sid (map JStr (l ++ [q; q']))
    :: FlowiseFetch (String.concat " " (l ++ [q; q'])) out
    :: rest.
Proof.
  intros Hstored Hfail.
  pose proof (index_queryFlowise_history E q sid st) as Hhist.
  destruct (Index.queryFlowise E q sid st) as [[r|e'] st1]; [discriminate|].
  cbn [snd].
  assert (Hst1 : default [] (conversationHistories st1 !! sid) =
                 map JStr (l ++ [q])).
  { rewrite Hhist, lookup_insert_eq. unfold asked. rewrite Hstored.
    by rewrite map_app. }
  destruct (index_queryFlowise_context (l ++ [q]) q' sid st1 Hst1)
    as [rest Hrest].
  rewrite <- app_assoc in Hrest. eauto.
Qed.
End Context_.

Lemma context_is_the_joined_history_witness :
  ∃ rest,
    effects_since (mkState {["s" := [JStr "hi"; JStr "pong"]]} [] [])
      (Index.queryFlowise calm "more" "s"
         (mkState {["s" := [JStr "hi"; JStr "pong"]]} [] [])).2 =
    HistorySet "s" [JStr "hi"; JStr "pong"; JStr "more"]
    :: FlowiseFetch "hi pong more" (Body (JObj [("text", JStr "pong")]))
    :: rest.
Proof.
  exact (context_is_the_joined_history calm ["hi"; "pong"] "more" "s"
           (mkState {["s" := [JStr "hi"; JStr "pong"]]} [] []) eq_refl).
Defined.

Lemma failed_question_stays_in_context_witness :
  ∃ out rest,
    effects_since (Index.queryFlowise offline "first" "s" fresh).2
      (Index.queryFlowise offline "again" "s"
         (Index.queryFlowise offline "first" "s" fresh).2).2 =
    HistorySet "s" [JStr "first"; JStr "again"]
    :: FlowiseFetch "first again" out
    :: rest.
Proof.
  exact (failed_question_stays_in_context offline [] "first" "again" "s"
           fresh FetchError eq_refl eq_refl).
Defined.

Section Upload.
Context (E : Env).

Lemma part000_reply_fixed_text mid text st :
  formatMarkdown text = text →
  ∃ r, Part000.reply E mid (JStr text) JUndef st =
       (Ok r,
        add_trace st
          [LarkReply (text_message mid text)
             (im_message_reply E (trace st) (text_message mid text))]).
Proof.
  intros Hplain. unfold Part000.reply, lark_reply, emit, add_trace.
  unfold_monad. cbn [formatMarkdown_of default_param]. rewrite Hplain.
  fold (text_message mid text).
  destruct (im_message_reply E (trace st) _); eauto.
Qed.

Lemma apology_is_plain : formatMarkdown apology = apology.
Proof. reflexivity. Qed.

(** X20: [reply] of part_000 never throws and touches neither store; it
    attempts at most one text message and no image message, and its value
    is the response of Lark when the message was accepted, [undefined]
    otherwise. *)
Theorem part000_reply_is_contained mid c t st :
  (Part000.reply E mid c t st).1 =
    Ok match formatMarkdown_of c with
       | Ok formatted =>
           default JUndef
             (im_message_reply E (trace st)
                (mkMessage mid (TextContent formatted)
                   (default_param t (JStr "text"))))
       | Throw _ => JUndef
       end
  ∧ conversationHistories (Part000.reply E mid c t st).2 =
    conversationHistories st
  ∧ processedEvents (Part000.reply E mid c t st).2 = processedEvents st
  ∧ (text_replies (effects_since st (Part000.reply E mid c t st).2) ≤ 1)%nat
  ∧ image_replies (effects_since st (Part000.reply E mid c t st).2) = 0%nat.
Proof.
  unfold Part000.reply, lark_reply, emit. unfold_monad.
  destruct (formatMarkdown_of c) as [formatted|e]; cbn [fst snd].
  2: { rewrite effects_since_refl. split_and!; try done. cbn. lia. }
  destruct (im_message_reply E (trace st) _) as [v|] eqn:Hsent;
    cbn [fst snd conversationHistories processedEvents default];
    (split_and!; try done;
     erewrite effects_since_app by reflexivity; cbn; lia).
Qed.

(** X21: [handleReply] of part_000 has no test of [userInput.text]: when it
    is not a string the handler throws before any effect, where index.js
    answers an absent text with the invalid-input notice. *)
Theorem part000_text_must_be_a_string userInput sid mid st :
  has_string_text userInput = false →
  ∃ e, Part000.handleReply E userInput sid mid st = (Throw e, st).
Proof.
  unfold has_string_text, Part000.handleReply. unfold_monad.
  destruct (get userInput "text") as [[| | | |s| |]|e]; try discriminate;
    eauto.
Qed.

Lemma part000_handleReply_question userInput s sid mid st :
  get userInput "text" = Ok (JStr s) →
  startsWith "/" (question_of s) = false →
  Part000.handleReply E userInput sid mid st =
  try_catch
    (answer ← Part000.queryFlowise E (question_of s) sid;
     if asks_for_chart (question_of s) then
       imageKey ← Part000.uploadImage E chart_file;
       if truthy imageKey then Part000.replyWithImage E mid imageKey
       else Part000.reply E mid answer JUndef
     else Part000.reply E mid answer JUndef)
    (fun _ => Part000.reply E mid (JStr apology) JUndef) st.
Proof.
  intros Htext Hquestion. unfold Part000.handleReply at 1.
  unfold lift at 1. unfold mbind at 1, M_bind at 1. rewrite Htext.
  cbn [result_bind]. unfold mbind at 1, M_bind at 1, mret at 1, M_ret at 1.
  fold (question_of s). rewrite Hquestion. reflexivity.
Qed.

(** X22: a question about a chart whose file does not exist gets the
    apology as only reply, whether Flowise answered or not: the upload is
    not attempted, and the exchange with Flowise stays in the history. *)
Theorem chart_without_file_gets_apology userInput s sid mid st :
  get userInput "text" = Ok (JStr s) →
  startsWith "/" (question_of s) = false →
  asks_for_chart (question_of s) = true →
  fs_existsSync E chart_file = false →
  let st1 := (Index.queryFlowise E (question_of s) sid st).2 in
  ∃ r, Part000.handleReply E userInput sid mid st =
       (Ok r,
        add_trace st1
          [LarkReply (text_message mid apology)
             (im_message_reply E (trace st1) (text_message mid apology))]).
Proof.
  intros Htext Hquestion Hchart Hfile st1.
  rewrite (part000_handleReply_question _ s) by done.
  unfold try_catch at 1. unfold mbind at 1, M_bind at 1.
  rewrite part000_queryFlowise_spec. subst st1.
  destruct (Index.queryFlowise E (question_of s) sid st) as [[result|e] st1];
    cbn [snd].
  2: apply part000_reply_fixed_text, apology_is_plain.
  rewrite Hchart. unfold Part000.uploadImage. rewrite Hfile.
  unfold_monad. apply part000_reply_fixed_text, apology_is_plain.
Qed.

(** X23: a question about a chart that Flowise answered and whose file
    Lark stored under a truthy key is answered with the image message
    alone; the text of the answer is not sent.  When Lark rejects the image
    message, the apology follows. *)
Theorem chart_with_file_sends_the_image userInput s sid mid st key :
  get userInput "text" = Ok (JStr s) →
  startsWith "/" (question_of s) = false →
  asks_for_chart (question_of s) = true →
  completes (Index.queryFlowise E (question_of s) sid st).1 = true →
  fs_existsSync E chart_file = true →
  im_image_create E (trace (Index.queryFlowise E (question_of s) sid st).2)
    chart_file = Some key →
  truthy key = true →
  let st1 := (Index.queryFlowise E (question_of s) sid st).2 in
  let upload := ImageCreate chart_file (Some key) in
  let sent :=
    LarkReply (image_message mid key)
      (im_message_reply E (trace st1 ++ [upload]) (image_message mid key)) in
  (Part000.handleReply E userInput sid mid st).2 =
  add_trace st1
    (upload :: sent ::
     match im_message_reply E (trace st1 ++ [upload]) (image_message mid key)
     with
     | Some _ => []
     | None =>
         [LarkReply (text_message mid apology)
            (im_message_reply E (trace st1 ++ [upload; sent])
               (text_message mid apology))]
     end).
Proof.
  intros Htext Hquestion Hchart Hanswered Hfile Hkey Htruthy st1 upload sent.
  rewrite (part000_handleReply_question _ s) by done.
  unfold try_catch at 1. unfold mbind at 1, M_bind at 1.
  rewrite part000_queryFlowise_spec. subst sent upload st1.
  destruct (Index.queryFlowise E (question_of s) sid st) as [[result|e] st1];
    [|discriminate].
  cbn [snd] in *. rewrite Hchart.
  unfold Part000.uploadImage, image_create. rewrite Hfile.
  unfold try_catch, mbind, M_bind. rewrite Hkey, Htruthy.
  unfold Part000.replyWithImage, lark_reply. fold (image_message mid key).
  cbn [emit trace].
  destruct (im_message_reply E (trace st1 ++ [_]) (image_message mid key))
    as [v|] eqn:Hsent.
  - cbn [snd]. unfold add_trace, emit. cbn [trace conversationHistories
      processedEvents]. by rewrite <- !app_assoc.
  - destruct (part000_reply_fixed_text mid apology
                (emit (LarkReply (image_message mid key) None)
                   (emit (ImageCreate chart_file (Some key)) st1))
                apology_is_plain) as [r ->].
    cbn [snd]. unfold add_trace, emit. cbn [trace conversationHistories
      processedEvents]. by rewrite <- !app_assoc.
Qed.

(** X24: when Lark rejects the upload of the chart, the user gets the
    apology and no image message, although Flowise answered. *)
Theorem rejected_upload_gets_apology userInput s sid mid st :
  get userInput "text" = Ok (JStr s) →
  startsWith "/" (question_of s) = false →
  asks_for_chart (question_of s) = true →
  completes (Index.queryFlowise E (question_of s) sid st).1 = true →
  fs_existsSync E chart_file = true →
  im_image_create E (trace (Index.queryFlowise E (question_of s) sid st).2)
    chart_file = None →
  let st1 := (Index.queryFlowise E (question_of s) sid st).2 in
  let upload := ImageCreate chart_file None in
  (Part000.handleReply E userInput sid mid st).2 =
  add_trace st1
    [upload;
     LarkReply (text_message mid apology)
       (im_message_reply E (trace st1 ++ [upload]) (text_message mid apology))].
Proof.
  intros Htext Hquestion Hchart Hanswered Hfile Hkey st1 upload.
  rewrite (part000_handleReply_question _ s) by done.
  unfold try_catch at 1. unfold mbind at 1, M_bind at 1.
  rewrite part000_queryFlowise_spec. subst upload st1.
  destruct (Index.queryFlowise E (question_of s) sid st) as [[result|e] st1];
    [|discriminate].
  cbn [snd] in *. rewrite Hchart.
  unfold Part000.uploadImage, image_create. rewrite Hfile.
  unfold try_catch, mbind, M_bind, throw. rewrite Hkey.
  destruct (part000_reply_fixed_text mid apology
              (emit (ImageCreate chart_file None) st1)
              apology_is_plain) as [r ->].
  cbn [snd]. unfold add_trace, emit. cbn [trace conversationHistories
    processedEvents]. by rewrite <- !app_assoc.
Qed.

Lemma replies_agree mid c st :
  (Part000.reply E mid c JUndef st).2 = (Index.reply E mid c JUndef JUndef st).2.
Proof.
  destruct (part000_reply_spec E mid c JUndef st) as [r ->].
  by rewrite index_reply_spec.
Qed.

(** X25: the webhook handlers of the two files return the same body and
    have the same effects on every request that is not a message of type
    text. *)
Theorem webhooks_agree_off_the_text_path params st :
  is_text_event params = false →
  Part000.webhook E params st = Index.webhook E params st.
Proof.
  unfold is_text_event, Part000.webhook, Index.webhook.
  unfold processed_has, processed_add. unfold_monad.
  intros Hother.
  repeat match goal with
  | |- context [get ?a ?b] =>
      let H := fresh "Hget" in
      destruct (get a b) eqn:H; try reflexivity; cbn beta iota
  | |- context [if ?b then _ else _] =>
      lazymatch b with
      | negb (is_str _ "text") => fail
      | _ => destruct b; try reflexivity
      end
  | |- context [sessionId_of ?a ?b] =>
      destruct (sessionId_of a b); try reflexivity; cbn beta iota
  end.
  all: try (rewrite Hother; cbn [negb];
            pose proof (replies_agree) as Hsame;
            match goal with
            | |- context [Part000.reply E ?m ?c JUndef ?s] =>
                specialize (Hsame m c s);
                destruct (part000_reply_spec E m c JUndef s) as [r Hr];
                rewrite Hr in *; rewrite index_reply_spec in *;
                reflexivity
            end).
Qed.
End Upload.

Lemma part000_text_must_be_a_string_witness :
  ∃ e, Part000.handleReply calm (JObj []) "oc_1ou_1" (JStr "om_1") fresh =
       (Throw e, fresh).
Proof.
  exact (part000_text_must_be_a_string calm (JObj []) "oc_1ou_1" (JStr "om_1")
           fresh eq_refl).
Defined.

Lemma chart_without_file_gets_apology_witness :
  ∃ r, Part000.handleReply calm chart_request "oc_1ou_1" (JStr "om_1") fresh =
       (Ok r,
        add_trace (Index.queryFlowise calm "show a Chart" "oc_1ou_1" fresh).2
          [LarkReply (text_message (JStr "om_1") apology) (Some lark_ok)]).
Proof.
  exact (chart_without_file_gets_apology calm chart_request
           "@_user_1 show a Chart" "oc_1ou_1" (JStr "om_1") fresh
           eq_refl eq_refl eq_refl eq_refl).
Defined.

Lemma chart_with_file_sends_the_image_witness :
  (Part000.handleReply charting chart_request "oc_1ou_1" (JStr "om_1")
     fresh).2 =
  add_trace (Index.queryFlowise charting "show a Chart" "oc_1ou_1" fresh).2
    [ImageCreate chart_file (Some (JStr "img_1"));
     LarkReply (image_message (JStr "om_1") (JStr "img_1")) (Some lark_ok)].
Proof.
  exact (chart_with_file_sends_the_image charting chart_request
           "@_user_1 show a Chart" "oc_1ou_1" (JStr "om_1") fresh
           (JStr "img_1") eq_refl eq_refl eq_refl eq_refl eq_refl eq_refl
           eq_refl).
Defined.

Lemma rejected_upload_gets_apology_witness :
  (Part000.handleReply upload_rejected chart_request "oc_1ou_1" (JStr "om_1")
     fresh).2 =
  add_trace
    (Index.queryFlowise upload_rejected "show a Chart" "oc_1ou_1" fresh).2
    [ImageCreate chart_file None;
     LarkReply (text_message (JStr "om_1") apology) (Some lark_ok)].
Proof.
  exact (rejected_upload_gets_apology upload_rejected chart_request
           "@_user_1 show a Chart" "oc_1ou_1" (JStr "om_1") fresh
           eq_refl eq_refl eq_refl eq_refl eq_refl eq_refl).
Defined.

Lemma webhooks_agree_off_the_text_path_witness :
  Part000.webhook calm (message_received sticker) fresh =
  Index.webhook calm (message_received sticker) fresh.
Proof.
  exact (webhooks_agree_off_the_text_path calm (message_received sticker)
           fresh eq_refl).
Defined.

Section Bodies.
Context (E : Env).

(** X26: the first delivery of a text message that [handleReply] handles to
    completion is acknowledged without a body: index.js passes the value of
    [handleReply], which is [undefined], to [res.json]. *)
Theorem text_message_is_acknowledged_without_body ev st :
  seen (eventId ev) st = false →
  messageType ev = "text" →
  content_rejected E (rawContent ev) = false →
  (Index.webhook E (message_received ev) st).1 = Ok JUndef.
Proof.
  intros Hnew Htext Hcontent.
  rewrite index_webhook_message_received, Hnew, Htext. cbn [String.eqb negb].
  change (String.eqb "text" "text") with true. cbn [negb].
  unfold content_rejected in Hcontent.
  destruct (JSON_parse E (rawContent ev)) as [userInput|]; [|discriminate].
  destruct (Index.handleReply E userInput _ _ _) as [r st'] eqn:Hrun.
  apply index_handleReply_spec in Hrun.
  destruct r as [v|e]; cbn [fst].
  - by destruct Hrun as [-> _].
  - destruct Hrun as [Hrejected _]. congruence.
Qed.

(** X27: in part_000 every command but "/clear" sends the usage text once,
    and sends it with the message type "Help"; neither store changes. *)
Theorem part000_help_has_type_Help action sid mid st :
  action ≠ "/clear" →
  Part000.cmdProcess E action sid mid st =
  (Ok JUndef,
   add_trace st
     [LarkReply
        (mkMessage mid (TextContent Part000.helpText) (JStr "Help"))
        (im_message_reply E (trace st)
           (mkMessage mid (TextContent Part000.helpText) (JStr "Help")))]).
Proof.
  intros Hother.
  assert (Hhelp : Part000.cmdHelp E mid st =
    (Ok JUndef,
     add_trace st
       [LarkReply
          (mkMessage mid (TextContent Part000.helpText) (JStr "Help"))
          (im_message_reply E (trace st)
             (mkMessage mid (TextContent Part000.helpText) (JStr "Help")))])).
  { unfold Part000.cmdHelp, Part000.reply, lark_reply, emit, add_trace.
    unfold_monad. cbn [formatMarkdown_of default_param].
    change (formatMarkdown Part000.helpText) with Part000.helpText.
    by destruct (im_message_reply E (trace st) _). }
  unfold Part000.cmdProcess.
  destruct (String.eqb action "/help"); [done|].
  destruct (String.eqb_spec action "/clear"); [done|done].
Qed.
End Bodies.

Lemma text_message_is_acknowledged_without_body_witness :
  (Index.webhook calm (message_received greeting) fresh).1 = Ok JUndef.
Proof.
  exact (text_message_is_acknowledged_without_body calm greeting fresh
           eq_refl eq_refl eq_refl).
Defined.

Lemma part000_help_has_type_Help_witness :
  Part000.cmdProcess calm "/helo" "oc_1ou_1" (JStr "om_1") fresh =
  (Ok JUndef,
   add_trace fresh
     [LarkReply
        (mkMessage (JStr "om_1") (TextContent Part000.helpText) (JStr "Help"))
        (Some lark_ok)]).
Proof.
  refine (part000_help_has_type_Help calm "/helo" "oc_1ou_1" (JStr "om_1")
            fresh _).
  discriminate.
Defined.

(** * The session store under the event loop *)

Section EventLoop.


(** The arrays in use after [ask]: the array of the call, and those in use
    before. *)
Lemma owns_ask q sid s ref sid' :
  owns (ask q sid s).2 ref sid' →
  (ref = default (allocated s) (sessions s !! sid) ∧ sid' = sid)
  ∨ owns s ref sid'.
Proof.
  unfold ask, owns.
  destruct (join " " _) as [context|e]; cbn [snd sessions suspended].
  - intros [H|[t H]].
    + destruct (decide (sid' = sid)) as [->|Hne].
      * rewrite lookup_insert_eq in H. injection H as <-. by left.
      * rewrite lookup_insert_ne in H by done. right. by left.
    + destruct (decide (t = issued s)) as [->|Hne].
      * rewrite lookup_insert_eq in H. injection H as <- <-. by left.
      * rewrite lookup_insert_ne in H by done. right. right. by exists t.
  - intros [H|[t H]].
    + destruct (decide (sid' = sid)) as [->|Hne].
      * rewrite lookup_insert_eq in H. injection H as <-. by left.
      * rewrite lookup_insert_ne in H by done. right. by left.
    + right. right. by exists t.
Qed.

Lemma owns_resume t out s ref sid :
  owns (resume t out s) ref sid → owns s ref sid.
Proof.
  unfold resume, owns.
  destruct (suspended s !! t) as [call|] eqn:Hcall; [|done].
  destruct (answer_of out) as [text|]; cbn [sessions suspended].
  - intros [H|[t' H]].
    + destruct (decide (sid = session call)) as [->|Hne].
      * rewrite lookup_insert_eq in H. injection H as <-.
        right. exists t. by destruct call.
      * rewrite lookup_insert_ne in H by done. by left.
    + apply lookup_delete_Some in H as [_ H]. right. by exists t'.
  - intros [H|[t' H]]; [by left|].
    apply lookup_delete_Some in H as [_ H]. right. by exists t'.
Qed.

Lemma owns_clear sid' s ref sid :
  owns (clear sid' s) ref sid → owns s ref sid.
Proof.
  unfold clear, owns. cbn [sessions suspended].
  intros [H|H]; [|by right].
  apply lookup_delete_Some in H as [_ H]. by left.
Qed.

Lemma allocated_ask q sid s :
  (allocated s ≤ allocated (ask q sid s).2)%nat.
Proof.
  unfold ask. destruct (join " " _); cbn [snd allocated];
    destruct (sessions s !! sid); lia.
Qed.

Lemma well_formed_step x s : well_formed s → well_formed (step x s).
Proof.
  intros [Halloc Howner Hissued]. destruct x as [q sid|t out|sid]; simpl.
  - split.
    + intros ref sid' Howns. apply owns_ask in Howns as [[-> ->]|Hold].
      * unfold ask. destruct (join " " _); cbn [snd allocated];
          destruct (sessions s !! sid) as [ref|] eqn:Href; cbn [default];
          try lia; apply (Halloc ref sid); by left.
      * pose proof (allocated_ask q sid s). specialize (Halloc _ _ Hold). lia.
    + assert (Hnew : ∀ sid', owns s (default (allocated s) (sessions s !! sid))
                         sid' → sid' = sid).
      { intros sid' Hold.
        destruct (sessions s !! sid) as [ref|] eqn:Href; cbn [default] in Hold.
        - apply (Howner ref); [done|by left].
        - specialize (Halloc _ _ Hold). lia. }
      intros ref sid1 sid2 H1 H2.
      apply owns_ask in H1 as [[-> ->]|H1];
        apply owns_ask in H2 as [[Href ->]|H2]; subst; eauto.
      symmetry. eauto.
    + intros t call. unfold ask.
      destruct (join " " _); cbn [snd suspended issued]; [|apply Hissued].
      intros H. destruct (decide (t = issued s)) as [->|Hne]; [lia|].
      rewrite lookup_insert_ne in H by done. specialize (Hissued _ _ H). lia.
  - split.
    + intros ref sid Howns. apply owns_resume in Howns.
      specialize (Halloc _ _ Howns). unfold resume.
      destruct (suspended s !! t); [|done]. by destruct (answer_of out).
    + intros ref sid1 sid2 H1 H2.
      apply owns_resume in H1. apply owns_resume in H2. eauto.
    + intros t' call. unfold resume.
      destruct (suspended s !! t) eqn:Ht; [|apply Hissued].
      destruct (answer_of out); cbn [suspended issued];
        intros H; apply lookup_delete_Some in H as [_ H]; eauto.
  - split.
    + intros ref sid' Howns. apply owns_clear in Howns.
      exact (Halloc _ _ Howns).
    + intros ref sid1 sid2 H1 H2.
      apply owns_clear in H1. apply owns_clear in H2. eauto.
    + exact Hissued.
Qed.


(** A step of another session leaves the entry of the session in the map
    alone. *)
Lemma foreign_step_sessions x s sid :
  step_session x s ≠ Some sid →
  sessions (step x s) !! sid = sessions s !! sid.
Proof.
  destruct x as [q sid'|t out|sid']; simpl; intros Hother.
  - unfold ask. destruct (join " " _); cbn [snd sessions];
      apply lookup_insert_ne; congruence.
  - unfold resume. destruct (suspended s !! t) as [call|]; [|done].
    simpl in Hother.
    destruct (answer_of out); cbn [sessions]; [|done].
    apply lookup_insert_ne. congruence.
  - unfold clear. cbn [sessions]. apply lookup_delete_ne. congruence.
Qed.


(** ... and the arrays of the session, and its suspended calls. *)
Lemma foreign_step_arrays x s sid ref :
  well_formed s → step_session x s ≠ Some sid → owns s ref sid →
  arrays (step x s) !! ref = arrays s !! ref.
Proof.
  intros [Halloc Howner Hissued] Hother Howns.
  destruct x as [q sid'|t out|sid']; simpl in *.
  - assert (Hne : default (allocated s) (sessions s !! sid') ≠ ref).
    { intros <-. destruct (sessions s !! sid') as [ref|] eqn:Href;
        cbn [default] in *.
      - apply Hother. f_equal. apply (Howner ref); [by left|done].
      - specialize (Halloc _ _ Howns). lia. }
    unfold ask. destruct (join " " _); cbn [snd arrays];
      by apply lookup_insert_ne.
  - unfold resume. destruct (suspended s !! t) as [call|] eqn:Hcall; [|done].
    simpl in Hother.
    destruct (answer_of out); cbn [arrays]; [|done].
    apply lookup_insert_ne. intros <-. apply Hother. f_equal.
    apply (Howner (held call)); [|done]. right. exists t. by destruct call.
  - done.
Qed.


Lemma foreign_step_history x s sid :
  well_formed s → step_session x s ≠ Some sid →
  history_of (step x s) sid = history_of s sid.
Proof.
  intros Hwf Hother. unfold history_of.
  rewrite (foreign_step_sessions x s sid Hother).
  destruct (sessions s !! sid) as [ref|] eqn:Href; [|done]. simpl.
  apply (foreign_step_arrays x s sid ref Hwf Hother). by left.
Qed.
End EventLoop.

Section Exchanges.












End Exchanges.





(** ** The handlers that run one after another

    Seen through the map, the three steps of the event loop are the [set]
    and [delete] of the handlers, and a call of [queryFlowise] that resumes
    as soon as it is suspended is [Index.queryFlowise]. *)

Section Refinement.
Context (E : Env).

Lemma view_lookup s sid : view s !! sid = history_of s sid.
Proof. unfold view, history_of. by rewrite lookup_omap. Qed.

Lemma view_clear sid s : view (clear sid s) = delete sid (view s).
Proof.
  apply map_eq. intros sid'. rewrite view_lookup. unfold history_of, clear.
  cbn [sessions arrays].
  destruct (decide (sid' = sid)) as [->|Hne].
  - by rewrite !lookup_delete_eq.
  - rewrite !lookup_delete_ne by done. by rewrite view_lookup.
Qed.

Lemma view_ask q sid s :
  well_formed s →
  view (ask q sid s).2 =
  <[sid := default [] (history_of s sid) ++ [JStr q]]> (view s).
Proof.
  intros Hwf. apply map_eq. intros sid'.
  destruct (decide (sid' = sid)) as [->|Hne].
  - rewrite lookup_insert_eq, view_lookup. unfold ask.
    destruct (join " " _); cbn [snd]; unfold history_of at 1;
      cbn [sessions arrays]; rewrite lookup_insert_eq;
      cbn [mbind option_bind]; by rewrite lookup_insert_eq.
  - rewrite lookup_insert_ne by done. rewrite !view_lookup.
    apply (foreign_step_history (Ask q sid) s sid' Hwf). simpl. congruence.
Qed.

Lemma view_resume t out s call text :
  well_formed s →
  suspended s !! t = Some call → answer_of out = Some text →
  view (resume t out s) =
  <[session call := default [] (arrays s !! held call) ++ [text]]> (view s).
Proof.
  intros Hwf Hcall Hanswer. apply map_eq. intros sid'.
  destruct (decide (sid' = session call)) as [->|Hne].
  - rewrite lookup_insert_eq, view_lookup. unfold resume, history_of.
    rewrite Hcall, Hanswer. cbn [sessions arrays].
    rewrite lookup_insert_eq. cbn [mbind option_bind].
    by rewrite lookup_insert_eq.
  - rewrite lookup_insert_ne by done. rewrite !view_lookup.
    apply (foreign_step_history (Resume t out) s sid' Hwf). simpl.
    rewrite Hcall. simpl. congruence.
Qed.

Lemma view_resume_failed t out s :
  answer_of out = None → view (resume t out s) = view s.
Proof.
  intros Hanswer. unfold resume.
  destruct (suspended s !! t); [|done]. by rewrite Hanswer.
Qed.

(** The [delete] of [cmdClear]. *)
Lemma clear_is_cmdClear sid mid s st :
  view s = conversationHistories st →
  view (clear sid s) = conversationHistories (Index.cmdClear E sid mid st).2.
Proof.
  intros Hview. rewrite view_clear, index_cmdClear_spec, Hview. reflexivity.
Qed.

(** A call that resumes right after it was suspended. *)
Lemma ask_resume_is_queryFlowise q sid s st out :
  well_formed s →
  view s = conversationHistories st →
  (∀ context,
     join " " (asked st sid q) = Ok context →
     out = flowise E (trace st ++ [HistorySet sid (asked st sid q)]) context) →
  view match (ask q sid s).1 with
       | Some t => resume t out (ask q sid s).2
       | None => (ask q sid s).2
       end =
  conversationHistories (Index.queryFlowise E q sid st).2.
Proof.
  intros Hwf Hview Hout.
  assert (Hhistory : default [] (history_of s sid) ++ [JStr q] = asked st sid q).
  { unfold asked. by rewrite <- Hview, view_lookup. }
  pose proof (view_ask q sid s Hwf) as Hasked. rewrite Hhistory, Hview in Hasked.
  pose proof (well_formed_step (Ask q sid) s Hwf) as Hwf'. cbn [step] in Hwf'.
  rewrite index_queryFlowise_spec. cbv zeta.
  assert (Hticket :
    match join " " (asked st sid q) with
    | Ok _ =>
        ∃ t ref, (ask q sid s).1 = Some t
          ∧ suspended (ask q sid s).2 !! t = Some (mkSuspended ref sid)
          ∧ arrays (ask q sid s).2 !! ref = Some (asked st sid q)
    | Throw _ => (ask q sid s).1 = None
    end).
  { unfold ask. rewrite Hhistory.
    destruct (join " " (asked st sid q)); [|done].
    eexists _, _. cbn [fst snd suspended arrays].
    by rewrite !lookup_insert_eq. }
  destruct (join " " (asked st sid q)) as [context|e] eqn:Hjoin.
  2: { rewrite Hticket. by rewrite Hasked. }
  destruct Hticket as (t & ref & -> & Hcall & Harray).
  cbn [trace]. rewrite <- (Hout context eq_refl).
  destruct out as [| |r]; cbn [snd conversationHistories].
  1, 2: by rewrite view_resume_failed.
  destruct (get r "text") as [text|e] eqn:Htext; cbn [snd conversationHistories].
  2: { rewrite view_resume_failed; [done|]. unfold answer_of. by rewrite Htext. }
  destruct (truthy text) eqn:Htruthy; cbn [snd conversationHistories].
  2: { rewrite view_resume_failed; [done|].
       unfold answer_of. by rewrite Htext, Htruthy. }
  rewrite (view_resume t (Body r) _ _ text Hwf' Hcall).
  2: { unfold answer_of. by rewrite Htext, Htruthy. }
  cbn [session held]. rewrite Harray, Hasked. cbn [default].
  apply insert_insert_eq.
Qed.
End Refinement.

(** * The acknowledgment of the webhook *)

Section Acknowledgment.
Context (E : Env).

Lemma read_message_header params header :
  get params "header" = Ok header →
  read_message params =
  (eventId ← get header "event_id";
   event ← get params "event";
   message ← get event "message";
   messageId ← get message "message_id";
   chatId ← get message "chat_id";
   messageType ← get message "message_type";
   sender ← get event "sender";
   sender_id ← get sender "sender_id";
   senderId ← get sender_id "user_id";
   sessionId ← sessionId_of chatId senderId;
   content ← get message "content";
   Ok (mkReceived eventId messageId messageType sessionId content)).
Proof. intros H. unfold read_message. by rewrite H. Qed.

(** The handler on a body with a message-received header that is neither a
    handshake nor encrypted. *)
Lemma index_webhook_received params st :
  is_handshake params = false → is_encrypted params = false →
  is_message_event params = true →
  match read_message params with
  | Throw e => Index.webhook E params st = (Throw e, st)
  | Ok m =>
      Index.webhook E params st =
      (seen ← processed_has (received_id m);
       if (seen : bool) then mret duplicate_event
       else
         processed_add (received_id m);;
         if negb (is_str (received_type m) "text") then
           Index.reply E (received_message m)
             (JStr "Only text messages are supported.") JUndef JUndef;;
           mret (JObj [("code", JNum 0)])
         else
           userInput ← parse E (received_content m);
           Index.handleReply E userInput (received_session m)
             (received_message m)) st
  end.
Proof.
  unfold is_handshake, is_encrypted, is_message_event, Index.webhook.
  intros Hshake Hencrypted Hevent.
  destruct (get params "header") as [header|] eqn:Hheader; [|discriminate].
  rewrite (read_message_header params header Hheader).
  assert (Hnull : nullish params = false) by by destruct params.
  destruct (get_total params "type" Hnull) as [type Htype].
  destruct (get_total params "encrypt" Hnull) as [encrypt Hencrypt].
  rewrite Htype in Hshake. rewrite Hencrypt in Hencrypted.
  destruct (get header "event_type") as [eventType|] eqn:HeventType;
    [|discriminate].
  assert (Htruthy : truthy header = true).
  { destruct header; simpl in HeventType; try discriminate;
      try (injection HeventType as <-; discriminate Hevent); done. }
  unfold_monad. rewrite Htype. cbn [lift]. rewrite Hshake, Hencrypt.
  cbn [lift]. rewrite Hencrypted. cbn [lift].
  rewrite Htruthy. cbn [negb]. rewrite HeventType.
  destruct (get header "event_id") as [eventId|]; [|done].
  cbn [lift]. rewrite Hevent.
  destruct (get params "event") as [event|]; [|done]. cbn [lift].
  destruct (get event "message") as [message|] eqn:Hmessage; [|done].
  cbn [lift].
  destruct (get message "message_id") as [messageId|] eqn:Hid; [|done].
  destruct (get message "chat_id") as [chatId|]; [|done].
  destruct (get message "message_type") as [messageType|]; [|done].
  cbn [lift].
  destruct (get event "sender") as [sender|]; [|done]. cbn [lift].
  destruct (get sender "sender_id") as [sender_id|]; [|done]. cbn [lift].
  destruct (get sender_id "user_id") as [senderId|]; [|done]. cbn [lift].
  destruct (sessionId_of chatId senderId) as [sessionId|]; [|done].
  cbn [lift].
  assert (Hmnull : nullish message = false).
  { by destruct message. }
  destruct (get_total message "content" Hmnull) as [content ->].
  cbn [received_id received_message received_type received_session
       received_content].
  unfold processed_has, processed_add.
  destruct (existsb _ (processedEvents st)); [done|].
  destruct (negb (is_str messageType "text")); [done|].
  cbn [lift].
  destruct (parse E content _) as [[userInput|e] st1]; [|done].
  by destruct (Index.handleReply E userInput sessionId messageId st1)
    as [[v|e] st2].
Qed.

(** [handleReply] of index.js completes unless it rejects its input. *)
Lemma index_handleReply_completes u sid mid st :
  completes (Index.handleReply E u sid mid st).1 = negb (input_rejected u).
Proof.
  destruct (Index.handleReply E u sid mid st) as [r st'] eqn:Hrun.
  apply index_handleReply_spec in Hrun. destruct r as [v|e]; cbn [fst].
  - by destruct Hrun as (_ & -> & _).
  - by destruct Hrun as (-> & _).
Qed.

(** C2, as the code has it.  The handler tests the body in a fixed order and
    answers each kind of body with one shape: a handshake with the
    [challenge] of the body; an encrypted body with code 1; a body without
    header with the verdict of the self-check, code 0 or 1; another event
    type with code 2; a message-received event whose id is in the processed
    set with the duplicate answer, and a new one that is not of type "text"
    with code 0.  It throws on a [null] body, on a message-received body it
    cannot read, and on a new message-received event of type "text" exactly
    when the content is refused; whatever the Lark client and Flowise do
    makes no difference to any of this. *)
Theorem webhook_acknowledgment params st :
  (nullish params = true → Index.webhook E params st = (Throw TypeError, st))
  ∧ (is_handshake params = true →
     ∃ challenge,
       get params "challenge" = Ok challenge
       ∧ Index.webhook E params st =
         (Ok (JObj [("challenge", challenge)]), st))
  ∧ (is_handshake params = false → is_encrypted params = true →
     Index.webhook E params st = (Ok encryption_notice, st))
  ∧ (is_handshake params = false → is_encrypted params = false →
     ∀ header,
       get params "header" = Ok header →
       (truthy header = false →
        ∃ message,
          Index.webhook E params st =
          (Ok (JObj [("code", JNum (if config_valid E then 0 else 1));
                     ("message", JStr message)]), st))
       ∧ (truthy header = true → is_message_event params = false →
          Index.webhook E params st = (Ok (JObj [("code", JNum 2)]), st))
       ∧ (is_message_event params = true →
          match read_message params with
          | Throw e => Index.webhook E params st = (Throw e, st)
          | Ok m =>
              if existsb (same_value_zero (received_id m)) (processedEvents st)
              then Index.webhook E params st = (Ok duplicate_event, st)
              else if negb (is_str (received_type m) "text")
              then (Index.webhook E params st).1 = Ok (JObj [("code", JNum 0)])
              else completes (Index.webhook E params st).1 =
                   negb (content_refused E (received_content m))
          end)).
Proof.
  split_and!.
  - by destruct params.
  - unfold is_handshake, Index.webhook. unfold_monad.
    destruct (get params "type") as [type|] eqn:Htype; [|discriminate].
    intros ->.
    assert (Hnull : nullish params = false) by by destruct params.
    destruct (get_total params "challenge" Hnull) as [challenge Hchallenge].
    exists challenge. by rewrite Hchallenge.
  - unfold is_handshake, is_encrypted, Index.webhook. unfold_monad.
    destruct (get params "type") as [type|] eqn:Htype.
    + intros ->. destruct (get params "encrypt"); [|discriminate].
      by intros ->.
    + by destruct params.
  - intros Hshake Hencrypted header Hheader.
    assert (Hnull : nullish params = false) by by destruct params.
    split_and!.
    + revert Hshake Hencrypted.
      unfold is_handshake, is_encrypted, Index.webhook. unfold_monad.
      destruct (get_total params "type" Hnull) as [type ->].
      destruct (get_total params "encrypt" Hnull) as [encrypt ->].
      intros -> ->. rewrite Hheader. cbn [lift]. intros ->. cbn [negb].
      rewrite validateAppConfig_verdict. eauto.
    + revert Hshake Hencrypted.
      unfold is_handshake, is_encrypted, is_message_event, Index.webhook.
      unfold_monad.
      destruct (get_total params "type" Hnull) as [type ->].
      destruct (get_total params "encrypt" Hnull) as [encrypt ->].
      intros -> ->. rewrite Hheader. cbn [lift]. intros Htruthy.
      rewrite Htruthy. cbn [negb].
      assert (Hhnull : nullish header = false)
        by by apply truthy_not_nullish.
      destruct (get_total header "event_type" Hhnull) as [eventType ->].
      destruct (get_total header "event_id" Hhnull) as [eventId ->].
      cbn [lift]. by intros ->.
    + intros Hevent.
      pose proof (index_webhook_received params st Hshake Hencrypted Hevent)
        as Hrun.
      destruct (read_message params) as [m|e]; [|done].
      rewrite Hrun. unfold processed_has, processed_add. unfold_monad.
      destruct (existsb _ (processedEvents st)); [done|].
      destruct (negb (is_str (received_type m) "text")).
      * rewrite index_reply_spec. reflexivity.
      * unfold parse, content_refused, content_rejected. unfold_monad.
        destruct (ToString (received_content m)) as [raw|]; [|done].
        cbn [lift].
        destruct (JSON_parse E raw) as [userInput|]; [|done].
        pose proof (index_handleReply_completes userInput (received_session m)
                      (received_message m)) as Hdone.
        match goal with
        | |- context [Index.handleReply E userInput ?sid ?mid ?s] =>
            specialize (Hdone s);
            destruct (Index.handleReply E userInput sid mid s) as [[v|e] s']
        end; exact Hdone.
Qed.
End Acknowledgment.

(** * The two versions of handleReply *)

Section Agreement.
Context (E : Env).

Lemma notice_is_plain : formatMarkdown invalid_input_notice = invalid_input_notice.
Proof. reflexivity. Qed.

Lemma index_notice mid st :
  Index.reply E mid (JStr invalid_input_notice) JUndef JUndef st =
  (Ok JUndef,
   add_trace st
     [LarkReply (text_message mid invalid_input_notice)
        (im_message_reply E (trace st)
           (text_message mid invalid_input_notice))]).
Proof. by apply reply_fixed_text. Qed.

Lemma index_apology mid st :
  Index.reply E mid (JStr apology) JUndef JUndef st =
  (Ok JUndef,
   add_trace st
     [LarkReply (text_message mid apology)
        (im_message_reply E (trace st) (text_message mid apology))]).
Proof. by apply reply_fixed_text. Qed.

(** [handleReply] of index.js on a question for Flowise. *)
Lemma index_handleReply_answer u s sid mid st :
  get u "text" = Ok (JStr s) →
  question_of s ≠ "" →
  startsWith "/" (question_of s) = false →
  Index.handleReply E u sid mid st =
  match Index.queryFlowise E (question_of s) sid st with
  | (Ok r, st1) => (Ok JUndef, add_trace st1 (answer_replies E mid r st1))
  | (Throw _, st1) =>
      (Ok JUndef,
       add_trace st1
         [LarkReply (text_message mid apology)
            (im_message_reply E (trace st1) (text_message mid apology))])
  end.
Proof.
  intros Htext Hne Hslash.
  assert (Htruthy : truthy (JStr s) = true).
  { destruct s; [by exfalso; apply Hne|done]. }
  pose proof (index_queryFlowise_history E (question_of s) sid st) as Hhist.
  unfold Index.handleReply. unfold_monad.
  rewrite Htext. cbn [lift]. rewrite Htruthy.
  change (trim (replace_first "@_user_1" "" s)) with (question_of s).
  destruct (question_of s) as [|c q] eqn:Hq; [done|].
  rewrite Hslash.
  destruct (Index.queryFlowise E (String c q) sid st) as [[r|e] st1].
  - destruct Hhist as (text & Hanswer & _ & _).
    assert (Hart : ∃ artifacts, get r "artifacts" = Ok artifacts).
    { destruct r; simpl in *; try discriminate; eauto. }
    destruct Hart as [artifacts Hart].
    unfold answer_replies, answer_text, artifacts_of.
    rewrite Hanswer, Hart. cbn [lift]. by rewrite index_reply_spec.
  - apply index_apology.
Qed.

(** [handleReply] of part_000 on a question for Flowise. *)
Lemma part000_handleReply_answer u s sid mid st :
  get u "text" = Ok (JStr s) →
  startsWith "/" (question_of s) = false →
  completes (Part000.handleReply E u sid mid st).1 = true
  ∧ match Index.queryFlowise E (question_of s) sid st with
    | (Ok r, st1) =>
        if asks_for_chart (question_of s) then
          if fs_existsSync E chart_file then
            ∃ rest,
              trace (Part000.handleReply E u sid mid st).2 =
              trace st1
              ++ ImageCreate chart_file
                   (im_image_create E (trace st1) chart_file) :: rest
          else
            (Part000.handleReply E u sid mid st).2 =
            add_trace st1
              [LarkReply (text_message mid apology)
                 (im_message_reply E (trace st1) (text_message mid apology))]
        else
          (Part000.handleReply E u sid mid st).2 =
          add_trace st1
            (send_until_failure E (trace st1)
               (reply_messages mid (answer_text r) JUndef JUndef))
    | (Throw _, st1) =>
        (Part000.handleReply E u sid mid st).2 =
        add_trace st1
          [LarkReply (text_message mid apology)
             (im_message_reply E (trace st1) (text_message mid apology))]
    end.
Proof.
  intros Htext Hslash.
  remember (Part000.handleReply E u sid mid st) as run eqn:Hrun.
  rewrite (part000_handleReply_question E u s sid mid st Htext Hslash) in Hrun.
  unfold try_catch at 1 in Hrun. unfold mbind at 1, M_bind at 1 in Hrun.
  rewrite part000_queryFlowise_spec in Hrun.
  destruct (Index.queryFlowise E (question_of s) sid st) as [[r|e] st1].
  2: { destruct (part000_reply_fixed_text E mid apology st1 apology_is_plain)
         as [v Hv]. rewrite Hv in Hrun. by subst run. }
  destruct (asks_for_chart (question_of s)).
  2: { destruct (part000_reply_spec E mid (answer_text r) JUndef st1)
         as [v Hv]. rewrite Hv in Hrun. by subst run. }
  unfold Part000.uploadImage in Hrun.
  destruct (fs_existsSync E chart_file).
  2: { unfold_monad.
       destruct (part000_reply_fixed_text E mid apology st1 apology_is_plain)
         as [v Hv]. rewrite Hv in Hrun. by subst run. }
  unfold image_create, try_catch, mbind, M_bind, throw in Hrun.
  destruct (im_image_create E (trace st1) chart_file) as [key|].
  2: { destruct (part000_reply_spec E mid (JStr apology) JUndef
                   (emit (ImageCreate chart_file None) st1)) as [v Hv].
       rewrite Hv in Hrun. subst run.
       cbn [fst snd completes add_trace emit trace]. split; [done|].
       rewrite <- app_assoc. eauto. }
  destruct (truthy key).
  - unfold Part000.replyWithImage, lark_reply in Hrun.
    destruct (im_message_reply E _ _) as [v|].
    + subst run. cbn [fst snd completes emit trace]. split; [done|].
      rewrite <- app_assoc. eauto.
    + match type of Hrun with
      | context [Part000.reply E mid (JStr apology) JUndef ?s] =>
          destruct (part000_reply_spec E mid (JStr apology) JUndef s)
            as [v Hv]
      end.
      rewrite Hv in Hrun. subst run.
      cbn [fst snd completes add_trace emit trace]. split; [done|].
      rewrite <- !app_assoc. eauto.
  - match type of Hrun with
    | context [Part000.reply E mid ?c JUndef ?s] =>
        destruct (part000_reply_spec E mid c JUndef s) as [v Hv]
    end.
    rewrite Hv in Hrun. subst run.
    cbn [fst snd completes add_trace emit trace]. split; [done|].
    rewrite <- app_assoc. eauto.
Qed.

Lemma index_queryFlowise_first q sid st :
  ∃ rest,
    trace (Index.queryFlowise E q sid st).2 =
    trace st ++ HistorySet sid (asked st sid q) :: rest.
Proof.
  rewrite index_queryFlowise_spec. cbv zeta.
  destruct (join " " _) as [context|e]; cbn [snd trace]; [|eauto].
  destruct (flowise E _ context) as [| |r]; cbn [snd trace emit];
    try (rewrite <- app_assoc; eauto).
  destruct (get r "text") as [text|e]; cbn [snd trace emit];
    try (rewrite <- app_assoc; eauto).
  destruct (truthy text); cbn [snd trace emit]; rewrite <- ?app_assoc; eauto.
Qed.

(** [handleReply] of part_000 on a text that is no command starts with the
    effects of [queryFlowise]. *)
Lemma part000_handleReply_first u s sid mid st :
  get u "text" = Ok (JStr s) →
  startsWith "/" (question_of s) = false →
  ∃ rest,
    trace (Part000.handleReply E u sid mid st).2 =
    trace st ++ HistorySet sid (asked st sid (question_of s)) :: rest.
Proof.
  intros Htext Hslash.
  destruct (part000_handleReply_answer u s sid mid st Htext Hslash)
    as [_ Hstate].
  destruct (index_queryFlowise_first (question_of s) sid st) as [pre Hpre].
  destruct (Index.queryFlowise E (question_of s) sid st) as [[r|e] st1];
    cbn [snd] in Hpre.
  - destruct (asks_for_chart (question_of s));
      [destruct (fs_existsSync E chart_file)|].
    + destruct Hstate as [rest ->]. rewrite Hpre, <- app_assoc. eauto.
    + rewrite Hstate. cbn [add_trace trace]. rewrite Hpre, <- app_assoc. eauto.
    + rewrite Hstate. cbn [add_trace trace]. rewrite Hpre, <- app_assoc. eauto.
  - rewrite Hstate. cbn [add_trace trace]. rewrite Hpre, <- app_assoc. eauto.
Qed.

Lemma add_trace_inj st a b : add_trace st a = add_trace st b → a = b.
Proof.
  unfold add_trace. intros H.
  assert (Htrace : trace st ++ a = trace st ++ b) by congruence.
  by apply app_inv_head in Htrace.
Qed.

(** The text message alone has no image reply. *)
Lemma text_only_no_image mid c t tr :
  image_replies (send_until_failure E tr (reply_messages mid c JUndef t)) = 0%nat.
Proof.
  unfold reply_messages.
  destruct (formatMarkdown_of c) as [formatted|]; [|done].
  cbn. by destruct (im_message_reply E tr _).
Qed.

Lemma part000_help mid st :
  Part000.cmdHelp E mid st =
  (Ok JUndef,
   add_trace st
     [LarkReply (mkMessage mid (TextContent Part000.helpText) (JStr "Help"))
        (im_message_reply E (trace st)
           (mkMessage mid (TextContent Part000.helpText) (JStr "Help")))]).
Proof.
  unfold Part000.cmdHelp, Part000.reply, lark_reply, emit, add_trace.
  unfold_monad. cbn [formatMarkdown_of default_param].
  change (formatMarkdown Part000.helpText) with Part000.helpText.
  by destruct (im_message_reply E (trace st) _).
Qed.

Lemma index_help mid st :
  Index.cmdHelp E mid st =
  (Ok JUndef,
   add_trace st
     [LarkReply (text_message mid Index.helpText)
        (im_message_reply E (trace st) (text_message mid Index.helpText))]).
Proof.
  unfold Index.cmdHelp. unfold_monad.
  by rewrite (reply_fixed_text E mid Index.helpText (JStr "Help") st).
Qed.

Lemma clear_agrees sid mid st :
  (Part000.cmdClear E sid mid st).2 = (Index.cmdClear E sid mid st).2
  ∧ completes (Part000.cmdClear E sid mid st).1 =
    completes (Index.cmdClear E sid mid st).1.
Proof.
  rewrite index_cmdClear_spec.
  unfold Part000.cmdClear, history_delete. unfold_monad.
  destruct (part000_reply_spec E mid (JStr "✅ Conversation history cleared.")
              JUndef
              (mkState (delete sid (conversationHistories st))
                 (processedEvents st) (trace st ++ [HistoryDelete sid])))
    as [r ->].
  done.
Qed.

Lemma non_string_text u text sid mid st :
  get u "text" = Ok text → (∀ s, text ≠ JStr s) →
  Part000.handleReply E u sid mid st = (Throw TypeError, st)
  ∧ Index.handleReply E u sid mid st =
    if truthy text then (Throw TypeError, st)
    else (Ok JUndef,
          add_trace st
            [LarkReply (text_message mid invalid_input_notice)
               (im_message_reply E (trace st)
                  (text_message mid invalid_input_notice))]).
Proof.
  intros Htext Hother.
  unfold Part000.handleReply, Index.handleReply. unfold_monad.
  rewrite Htext. cbn [lift].
  destruct text as [| |b|n|s|l|props]; try (by exfalso; eapply Hother);
    (split; [reflexivity|]);
    destruct (truthy _); try reflexivity; exact (index_notice mid st).
Qed.

Lemma index_handleReply_blank u s sid mid st :
  get u "text" = Ok (JStr s) → question_of s = "" →
  Index.handleReply E u sid mid st =
  (Ok JUndef,
   add_trace st
     [LarkReply (text_message mid invalid_input_notice)
        (im_message_reply E (trace st)
           (text_message mid invalid_input_notice))]).
Proof.
  intros Htext Hq. unfold Index.handleReply. unfold_monad. rewrite Htext.
  cbn [lift]. destruct (truthy (JStr s)); [|exact (index_notice mid st)].
  change (trim (replace_first "@_user_1" "" s)) with (question_of s).
  rewrite Hq. exact (index_notice mid st).
Qed.

Lemma index_handleReply_command u s sid mid st :
  get u "text" = Ok (JStr s) → question_of s ≠ "" →
  startsWith "/" (question_of s) = true →
  Index.handleReply E u sid mid st =
  Index.cmdProcess E (question_of s) sid mid st.
Proof.
  intros Htext Hne Hslash.
  assert (Htruthy : truthy (JStr s) = true).
  { destruct s; [by exfalso; apply Hne|done]. }
  unfold Index.handleReply. unfold_monad. rewrite Htext. cbn [lift].
  rewrite Htruthy.
  change (trim (replace_first "@_user_1" "" s)) with (question_of s).
  destruct (question_of s) as [|c q] eqn:Hq; [done|]. by rewrite Hslash.
Qed.

Lemma part000_handleReply_command u s sid mid st :
  get u "text" = Ok (JStr s) →
  startsWith "/" (question_of s) = true →
  Part000.handleReply E u sid mid st =
  Part000.cmdProcess E (question_of s) sid mid st.
Proof.
  intros Htext Hslash.
  unfold Part000.handleReply. unfold_monad. rewrite Htext. cbn [lift].
  change (trim (replace_first "@_user_1" "" s)) with (question_of s).
  by rewrite Hslash.
Qed.

(** C10, as the code has it.  The two versions of [handleReply] end in the
    same state (the same stores and the same trace of history mutations,
    requests and replies) and both complete or both throw exactly on the
    inputs of [versions_agree_on]: an input without [text] property to read
    or with a truthy [text] that is not a string (both throw before any
    effect); the command "/clear"; a question on which Flowise fails (both
    apologise); an answered question that does not ask for a chart, when
    index.js attempts no image message; and an answered question that asks
    for a chart when the chart file is missing and what index.js attempts
    is the apology text alone.  On every other input they differ. *)
Theorem handleReply_versions_agree u sid mid st :
  ((Part000.handleReply E u sid mid st).2 = (Index.handleReply E u sid mid st).2
   ∧ completes (Part000.handleReply E u sid mid st).1 =
     completes (Index.handleReply E u sid mid st).1)
  ↔ versions_agree_on E u sid mid st.
Proof.
  unfold versions_agree_on.
  destruct (get u "text") as [text|e] eqn:Htext.
  2: { unfold Part000.handleReply, Index.handleReply. unfold_monad.
       rewrite Htext. by split. }
  assert (Hcases : (∃ s, text = JStr s) ∨ ∀ s, text ≠ JStr s).
  { destruct text; eauto. }
  destruct Hcases as [[s ->]|Hnot].
  2: { destruct (non_string_text u text sid mid st Htext Hnot) as [-> ->].
       destruct text as [| |b|n|s|l|props]; try (by exfalso; eapply Hnot);
         destruct (truthy _); split; try done; by intros [_ Hc]. }
  destruct (String.eqb_spec (question_of s) "") as [Hblank|Hne].
  { split; [|done]. intros [Hstate _].
    rewrite (index_handleReply_blank u s sid mid st Htext Hblank) in Hstate.
    destruct (part000_handleReply_first u s sid mid st Htext) as [rest Hfirst].
    { by rewrite Hblank. }
    rewrite Hstate in Hfirst. cbn [add_trace trace] in Hfirst.
    by apply app_inv_head in Hfirst. }
  destruct (startsWith "/" (question_of s)) eqn:Hslash.
  { rewrite (index_handleReply_command u s sid mid st Htext Hne Hslash).
    rewrite (part000_handleReply_command u s sid mid st Htext Hslash).
    unfold Index.cmdProcess, Part000.cmdProcess.
    destruct (String.eqb_spec (question_of s) "/clear") as [->|Hclear].
    - split; [done|]. intros _. apply clear_agrees.
    - split; [|done]. intros [Hstate _]. exfalso.
      destruct (String.eqb (question_of s) "/help");
        rewrite part000_help, index_help in Hstate;
        apply add_trace_inj in Hstate; discriminate. }
  rewrite (index_handleReply_answer u s sid mid st Htext Hne Hslash).
  destruct (part000_handleReply_answer u s sid mid st Htext Hslash)
    as [Hdone Hstate].
  rewrite Hdone.
  destruct (Index.queryFlowise E (question_of s) sid st) as [[r|e] st1].
  2: { split; [done|]. intros _. by rewrite Hstate. }
  destruct (asks_for_chart (question_of s)).
  - destruct (fs_existsSync E chart_file).
    + split; [|by intros [? _]]. intros [Hsame _]. exfalso.
      destruct Hstate as [rest Hrest]. rewrite Hsame in Hrest.
      cbn [snd add_trace trace] in Hrest. apply app_inv_head in Hrest.
      pose proof (send_until_failure_replies E
                    (reply_messages mid (answer_text r) (artifacts_of r) JUndef)
                    (trace st1)) as Hreplies.
      fold (answer_replies E mid r st1) in Hreplies.
      rewrite Hrest in Hreplies. discriminate.
    + rewrite Hstate. cbn [fst snd completes]. split.
      * intros [Hsame _]. split; [done|]. symmetry. by apply add_trace_inj in Hsame.
      * intros [_ ->]. done.
  - rewrite Hstate. cbn [fst snd completes]. split.
    + intros [Hsame _]. apply add_trace_inj in Hsame.
      rewrite <- Hsame. apply text_only_no_image.
    + intros Hnone. split; [|done]. f_equal. symmetry.
      by apply no_image_same_messages.
Qed.
End Agreement.
